(** * AutoServe: the autoscaling decision engine

    A shallow embedding of the two Python modules that make up the
    decision engine of AutoServe:

    - [apps/worker/tasks.py]: [process_metrics] (aggregation of a batch of
      samples) and [check_metric_alerts] (static alert thresholds);
    - [ml-controller/controller.py]: [MLScalingController], in particular
      [predict_scaling_decision], [get_current_replicas] and
      [scale_deployment].

    Numbers.  Python floats are modelled by [npfloat]: an exact rational
    or one of the three special values of IEEE arithmetic.  Rounding of
    float64 operations is not modelled: an operation on finite values
    returns the exact rational result.  All thresholds that the code
    compares against (80, 85, 90, 95, 5, 10, 0.5, 0.7, 0.95, 300) are read
    as the rationals they denote.

    Effects.  Both modules read clocks, call external services and mutate
    shared dictionaries.  Effectful functions are written in a state and
    exception monad [Eff S]: a computation maps a state to a result (a
    value or a raised exception) and the state reached.  A raised exception
    keeps the state changes made before it, as in Python.  Calls to the
    structured logger are not modelled. *)

From Stdlib Require Import QArith Qround Lqa.
From stdpp Require Import gmap strings list fin_maps pretty.

Local Open Scope Q_scope.

(** ** Python values and builtins *)

Module Py.

(** Exceptions that the two modules can raise or catch. *)
Inductive exn :=
  | ValueError (msg : string)
  | KeyError (key : string)
  | ApiException (msg : string).

(** The class name of an exception, [type(e).__name__]. *)
Definition exn_name (e : exn) : string :=
  match e with
  | ValueError _ => "ValueError"
  | KeyError _ => "KeyError"
  | ApiException _ => "ApiException"
  end.

(** [str(e)]. *)
Definition exn_str (e : exn) : string :=
  match e with
  | ValueError msg => msg
  | KeyError key => "'" +:+ key +:+ "'"
  | ApiException msg => msg
  end.

(** The exception of [np.max] on an empty sequence. *)
Definition zero_size_error : exn :=
  ValueError
    "zero-size array to reduction operation maximum which has no identity".

Inductive result (A : Type) :=
  | Ok (a : A)
  | Raise (e : exn).
Arguments Ok {A} a.
Arguments Raise {A} e.

(** State and exception monad. *)
Definition Eff (S A : Type) : Type := S → result A * S.

Definition ret {S A} (a : A) : Eff S A := λ s, (Ok a, s).

Definition bind {S A B} (m : Eff S A) (k : A → Eff S B) : Eff S B :=
  λ s, match m s with
       | (Ok a, s') => k a s'
       | (Raise e, s') => (Raise e, s')
       end.

Definition raise {S A} (e : exn) : Eff S A := λ s, (Raise e, s).

(** [try: m except Exception as e: h e]. *)
Definition try_except {S A} (m : Eff S A) (h : exn → Eff S A) : Eff S A :=
  λ s, match m s with
       | (Ok a, s') => (Ok a, s')
       | (Raise e, s') => h e s'
       end.

Definition gets {S A} (f : S → A) : Eff S A := λ s, (Ok (f s), s).
Definition modify {S} (f : S → S) : Eff S unit := λ s, (Ok tt, f s).

(** Lifting of a computation that cannot touch the state. *)
Definition lift {S A} (r : result A) : Eff S A := λ s, (r, s).

#[global] Instance Eff_ret {S} : MRet (Eff S) := λ A, ret.
#[global] Instance Eff_bind {S} : MBind (Eff S) := λ A B k m, bind m k.

(** [for x in xs: body x]. *)
Fixpoint for_each {S A} (xs : list A) (body : A → Eff S unit) : Eff S unit :=
  match xs with
  | [] => ret tt
  | x :: xs' => bind (body x) (λ _, for_each xs' body)
  end.

(** *** Floats *)

Inductive npfloat :=
  | Fin (q : Q)
  | PInf
  | NInf
  | NaN.

Definition Qltb (x y : Q) : bool :=
  match x ?= y with Lt => true | _ => false end.

(** Comparisons: every comparison with [NaN] is [False]. *)
Definition flt (x y : npfloat) : bool :=
  match x, y with
  | Fin a, Fin b => Qltb a b
  | Fin _, PInf => true
  | NInf, Fin _ => true
  | NInf, PInf => true
  | _, _ => false
  end.

Definition fle (x y : npfloat) : bool :=
  match x, y with
  | Fin a, Fin b => Qle_bool a b
  | Fin _, PInf => true
  | NInf, Fin _ => true
  | NInf, PInf => true
  | PInf, PInf => true
  | NInf, NInf => true
  | _, _ => false
  end.

Definition fgt (x y : npfloat) : bool := flt y x.
Definition fge (x y : npfloat) : bool := fle y x.

(** The builtins [max(a, b)] and [min(a, b)]: the first argument is kept
    unless the second compares strictly greater (smaller). *)
Definition py_max (a b : npfloat) : npfloat := if fgt b a then b else a.
Definition py_min (a b : npfloat) : npfloat := if flt b a then b else a.

Definition fopp (x : npfloat) : npfloat :=
  match x with
  | Fin q => Fin (- q)
  | PInf => NInf
  | NInf => PInf
  | NaN => NaN
  end.

Definition fadd (x y : npfloat) : npfloat :=
  match x, y with
  | Fin a, Fin b => Fin (a + b)
  | NaN, _ | _, NaN => NaN
  | PInf, NInf | NInf, PInf => NaN
  | PInf, _ | _, PInf => PInf
  | NInf, _ | _, NInf => NInf
  end.

Definition fsub (x y : npfloat) : npfloat := fadd x (fopp y).

(** Division of numpy scalars: a zero divisor gives an infinity or [NaN]
    (with a warning), never an exception. *)
Definition fdiv (x y : npfloat) : npfloat :=
  match x, y with
  | NaN, _ | _, NaN => NaN
  | Fin a, Fin b =>
      match b ?= 0 with
      | Eq => match a ?= 0 with Eq => NaN | Gt => PInf | Lt => NInf end
      | _ => Fin (a / b)
      end
  | Fin _, (PInf | NInf) => Fin 0
  | (PInf | NInf), (PInf | NInf) => NaN
  | PInf, Fin b => if Qltb b 0 then NInf else PInf
  | NInf, Fin b => if Qltb b 0 then PInf else NInf
  end.

(** [sum(xs)]. *)
Definition py_sum (xs : list Q) : Q := foldr Qplus 0 xs.

(** [len(xs)] as a number. *)
Definition py_len {A} (xs : list A) : Q := inject_Z (Z.of_nat (length xs)).

(** [np.mean(xs)]: [nan] (and a warning) on an empty sequence. *)
Definition np_mean (xs : list Q) : npfloat :=
  match xs with
  | [] => NaN
  | _ => Fin (py_sum xs / py_len xs)
  end.

Definition Qmax (a b : Q) : Q := if Qltb a b then b else a.

(** [np.max(xs)]: raises on an empty sequence. *)
Definition np_max (xs : list Q) : result Q :=
  match xs with
  | [] => Raise zero_size_error
  | x :: xs' => Ok (foldl Qmax x xs')
  end.

(** [round(x)] on a finite float: to the nearest integer, ties to even. *)
Definition py_round (q : Q) : Z :=
  let f := Qfloor q in
  match Qcompare (q - inject_Z f) (1 # 2) with
  | Lt => f
  | Gt => (f + 1)%Z
  | Eq => if Z.even f then f else (f + 1)%Z
  end.


End Py.

(** ** The worker tasks ([apps/worker/tasks.py], [apps/worker/worker.py]) *)

Module Worker.
Import Py.

(** The dictionary [processed_metrics] built by [process_metrics] and
    received by [check_metric_alerts].  Every key that [process_metrics]
    writes is a field; the defaults of [metrics.get(key, default)] in
    [check_metric_alerts] are therefore never used on such a dictionary. *)
Record MetricSummary := {
  service_name : string;
  timestamp : string;
  avg_cpu : npfloat;
  max_cpu : Q;
  avg_memory : npfloat;
  max_memory : Q;
  request_count : Q;
  error_count : Q
}.


(** A message handed to the Celery broker by [task.delay(...)]. *)
Inductive task :=
  | check_metric_alerts_delay (service_name : string) (metrics : MetricSummary)
  | send_notification_delay (notification_type message : string)
      (recipients : list string) (webhook_url : option string).

(** What the tasks read and write outside their arguments:
    - [utcnow]: the reading [datetime.utcnow().isoformat()];
    - [SLACK_WEBHOOK_URL]: the environment variable of that name;
    - [broker]: the messages sent to the broker, oldest first;
    - [TASKS_TOTAL]: the Prometheus counter of [worker.py], by labels
      [(task_name, status)]. *)
Record World := {
  utcnow : string;
  SLACK_WEBHOOK_URL : option string;
  broker : list task;
  TASKS_TOTAL : gmap (string * string) nat
}.

Definition delay (t : task) : Eff World unit :=
  modify (λ w, {| utcnow := utcnow w;
                  SLACK_WEBHOOK_URL := SLACK_WEBHOOK_URL w;
                  broker := broker w ++ [t];
                  TASKS_TOTAL := TASKS_TOTAL w |}).

(** [TASKS_TOTAL.labels(task_name=..., status=...).inc()]. *)
Definition TASKS_TOTAL_inc (task_name status : string) : Eff World unit :=
  modify (λ w, {| utcnow := utcnow w;
                  SLACK_WEBHOOK_URL := SLACK_WEBHOOK_URL w;
                  broker := broker w;
                  TASKS_TOTAL :=
                    <[(task_name, status) :=
                        S (default O (TASKS_TOTAL w !! (task_name, status)))]>
                      (TASKS_TOTAL w) |}).

(** The decorator [monitored_task] of [worker.py], applied to a task body
    that has received its arguments.  The duration histogram is not
    modelled. *)
Definition monitored_task {A} (task_name : string) (func : Eff World A)
  : Eff World A :=
  try_except
    (result ← func;
     TASKS_TOTAL_inc task_name "success";;
     mret result)
    (λ e, TASKS_TOTAL_inc task_name "failure";; raise e).

(** The body of [process_metrics].  [metrics_data] maps the keys
    ['cpu_values'], ['memory_values'], ['request_counts'] and
    ['error_counts'] to sequences of numbers; an absent key reads as the
    empty list.  The entries of the dictionary literal are evaluated in the
    order in which they are written. *)
Definition process_metrics_func (service_name : string)
    (metrics_data : gmap string (list Q)) : Eff World MetricSummary :=
  try_except
    (now ← gets utcnow;
     let avg_cpu := np_mean (default [] (metrics_data !! "cpu_values")) in
     max_cpu ← lift (np_max (default [] (metrics_data !! "cpu_values")));
     let avg_memory := np_mean (default [] (metrics_data !! "memory_values")) in
     max_memory ← lift (np_max (default [] (metrics_data !! "memory_values")));
     let processed_metrics :=
       {| service_name := service_name;
          timestamp := now;
          avg_cpu := avg_cpu;
          max_cpu := max_cpu;
          avg_memory := avg_memory;
          max_memory := max_memory;
          request_count := py_sum (default [] (metrics_data !! "request_counts"));
          error_count := py_sum (default [] (metrics_data !! "error_counts")) |} in
     delay (check_metric_alerts_delay service_name processed_metrics);;
     mret processed_metrics)
    (λ e, raise e).

Definition process_metrics (service_name : string)
    (metrics_data : gmap string (list Q)) : Eff World MetricSummary :=
  monitored_task "process_metrics"
    (process_metrics_func service_name metrics_data).

(** The expression bound to [error_rate] in [check_metric_alerts], in
    percent. *)
Definition error_rate (metrics : MetricSummary) : Q :=
  let total_requests := request_count metrics in
  if Qltb 0 total_requests
  then (error_count metrics / total_requests) * 100
  else 0.





End Worker.

(** ** The scaling controller ([ml-controller/controller.py]) *)

Module Controller.
Import Py.

(** The part of a [V1Deployment] that the controller reads and writes:
    [deployment.spec.replicas], which may be [None]. *)
Record V1Deployment := {
  spec_replicas : option Z
}.

(** The assignment [deployment.spec.replicas = replicas]. *)
Definition set_spec_replicas (replicas : option Z) (d : V1Deployment)
  : V1Deployment :=
  {| spec_replicas := replicas |}.

(** The two calls that the controller makes on [client.AppsV1Api()], as
    computations on the state [K] of the cluster.  Each may raise. *)
Class AppsV1Api (K : Type) := {
  read_namespaced_deployment (name namespace : string) : Eff K V1Deployment;
  patch_namespaced_deployment (name namespace : string) (body : V1Deployment)
    : Eff K unit
}.

(** The square root behind [np.std]; its result is a float that the exact
    model cannot compute, so it is left to the numerical library. *)
Class Numpy := {
  np_sqrt : Q → Q
}.

(** A fitted [StandardScaler] ([transform] on one row) and a fitted
    [RandomForestRegressor] ([predict] on one row, first entry). *)
Abbreviation Scaler := (list Q → list Q).
Abbreviation Model := (list Q → Q).

(** The attributes of [self] that the decision path uses.
    [k8s_apps_v1] is [false] when the attribute is [None]. *)
Record MLScalingController := {
  confidence_threshold : npfloat;
  scaling_cooldown : Z;
  models : gmap string Model;
  scalers : gmap string Scaler;
  last_scaling_times : gmap string Q;
  k8s_apps_v1 : bool
}.

(** The configuration that [__init__] reads when the environment
    variables [CONFIDENCE_THRESHOLD] and [SCALING_COOLDOWN] are unset. *)
Definition default_confidence_threshold : npfloat := Fin (7 # 10).
Definition default_scaling_cooldown : Z := 300.

(** The dictionary returned by [scale_deployment]. *)
Record ScaleResult := {
  sr_service_name : string;
  sr_replicas : Z;
  sr_status : string;
  sr_message : string
}.

(** The dictionary returned by [predict_scaling_decision].  The keys
    ['timestamp'], ['metrics'] and ['executed'] are absent from the
    dictionary of the early return, hence optional. *)
Record Prediction := {
  service_name : string;
  current_replicas : Z;
  recommended_replicas : Z;
  confidence : npfloat;
  reason : string;
  action : string;
  timestamp : option Q;
  metrics : option (gmap string Q);
  executed : option bool
}.

Section WithCluster.
Context {K : Type} `{!AppsV1Api K} `{!Numpy}.

(** What the controller reads and writes outside [self]:
    - [cluster]: the state behind the Kubernetes API;
    - [clock], [ticks]: [time.time()] returns [clock ticks] and the next
      call reads the next entry;
    - [now_hour], [now_weekday]: [datetime.now().hour] and
      [datetime.now().weekday()];
    - [prometheus service metric]: the value extracted from the answer of
      Prometheus to the query for [metric], [None] when the request fails,
      is refused or has an empty result;
    - [scale_results]: the dictionaries returned so far by
      [scale_deployment], oldest first.  [predict_scaling_decision] drops
      the dictionary it receives; it is recorded here so that a dispatch
      and its outcome can be told from the state. *)
Record Env := {
  cluster : K;
  clock : nat → Q;
  ticks : nat;
  now_hour : Z;
  now_weekday : Z;
  prometheus : string → string → option Q;
  scale_results : list ScaleResult
}.

Record State := {
  self : MLScalingController;
  env : Env
}.

Definition set_cluster (k : K) (e : Env) : Env :=
  {| cluster := k; clock := clock e; ticks := ticks e;
     now_hour := now_hour e; now_weekday := now_weekday e;
     prometheus := prometheus e; scale_results := scale_results e |}.

Definition set_ticks (n : nat) (e : Env) : Env :=
  {| cluster := cluster e; clock := clock e; ticks := n;
     now_hour := now_hour e; now_weekday := now_weekday e;
     prometheus := prometheus e; scale_results := scale_results e |}.

Definition set_scale_results (l : list ScaleResult) (e : Env) : Env :=
  {| cluster := cluster e; clock := clock e; ticks := ticks e;
     now_hour := now_hour e; now_weekday := now_weekday e;
     prometheus := prometheus e; scale_results := l |}.

Definition set_last_scaling_times (m : gmap string Q)
    (c : MLScalingController) : MLScalingController :=
  {| confidence_threshold := confidence_threshold c;
     scaling_cooldown := scaling_cooldown c;
     models := models c; scalers := scalers c;
     last_scaling_times := m; k8s_apps_v1 := k8s_apps_v1 c |}.

Definition with_env (f : Env → Env) (s : State) : State :=
  {| self := self s; env := f (env s) |}.

Definition with_self (f : MLScalingController → MLScalingController)
    (s : State) : State :=
  {| self := f (self s); env := env s |}.

(** A call on the Kubernetes client. *)
Definition k8s {A} (call : Eff K A) : Eff State A :=
  λ s, let (r, k) := call (cluster (env s)) in
       (r, with_env (set_cluster k) s).

(** [time.time()]. *)
Definition time_time : Eff State Q :=
  λ s, (Ok (clock (env s) (ticks (env s))),
        with_env (set_ticks (S (ticks (env s)))) s).

(** The metric names of the dictionary [queries], in order. *)
Definition queries : list string :=
  ["cpu_usage"; "memory_usage"; "request_rate"; "response_time";
   "error_rate"].

(** [get_prometheus_metrics]: every query that does not yield a value
    contributes [0.0]; the two time features are added last. *)
Definition get_prometheus_metrics (service_name : string)
  : Eff State (gmap string Q) :=
  e ← gets env;
  let metrics :=
    foldl (λ metrics metric_name,
             <[metric_name := default 0 (prometheus e service_name metric_name)]>
               metrics)
          ∅ queries in
  let metrics := <["hour_of_day" := inject_Z (now_hour e)]> metrics in
  let metrics := <["day_of_week" := inject_Z (now_weekday e)]> metrics in
  mret metrics.

(** [x or 1] on an optional integer: [None] and [0] are falsy. *)
Definition or_1 (x : option Z) : Z :=
  match x with
  | None => 1%Z
  | Some 0%Z => 1%Z
  | Some n => n
  end.

Definition get_current_replicas (service_name : string)
    (namespace : string := "default") : Eff State Z :=
  try_except
    (connected ← gets (λ s, k8s_apps_v1 (self s));
     if negb connected then mret 1%Z
     else
       deployment ← k8s (read_namespaced_deployment service_name namespace);
       mret (or_1 (spec_replicas deployment)))
    (λ e, mret 1%Z).

Definition record_scale_result (r : ScaleResult) : Eff State ScaleResult :=
  modify (with_env (λ e, set_scale_results (scale_results e ++ [r]) e));;
  mret r.

Definition scale_deployment (service_name : string) (replicas : Z)
    (namespace : string := "default") : Eff State ScaleResult :=
  result ←
    try_except
      (connected ← gets (λ s, k8s_apps_v1 (self s));
       if negb connected then
         mret {| sr_service_name := service_name;
                 sr_replicas := replicas;
                 sr_status := "simulated";
                 sr_message := "Kubernetes not available" |}
       else
         deployment ← k8s (read_namespaced_deployment service_name namespace);
         let deployment := set_spec_replicas (Some replicas) deployment in
         k8s (patch_namespaced_deployment service_name namespace deployment);;
         mret {| sr_service_name := service_name;
                 sr_replicas := replicas;
                 sr_status := "success";
                 sr_message := "Scaled " +:+ service_name +:+ " to " +:+
                               pretty replicas +:+ " replicas" |})
      (λ e, mret {| sr_service_name := service_name;
                    sr_replicas := replicas;
                    sr_status := "error";
                    sr_message := exn_str e |});
  record_scale_result result.

(** [np.std(xs)]: the square root of the mean squared deviation. *)
Definition np_std (xs : list Q) : npfloat :=
  match np_mean xs with
  | Fin m => match np_mean ((λ x, (x - m) * (x - m)) <$> xs) with
             | Fin v => Fin (np_sqrt v)
             | other => other
             end
  | other => other
  end.

(** The list [features] of [predict_scaling_decision]. *)
Definition features (current_metrics : gmap string Q) (e : Env) : list Q :=
  [ default 0 (current_metrics !! "cpu_usage");
    default 0 (current_metrics !! "memory_usage");
    default 0 (current_metrics !! "request_rate");
    default 0 (current_metrics !! "response_time");
    default (inject_Z (now_hour e)) (current_metrics !! "hour_of_day");
    default (inject_Z (now_weekday e)) (current_metrics !! "day_of_week") ].

(** [1.0 - (np.std(features[:4]) / (np.mean(features[:4]) + 1e-6))]. *)
Definition feature_stability (features : list Q) : npfloat :=
  fsub (Fin 1)
       (fdiv (np_std (take 4 features))
             (fadd (np_mean (take 4 features)) (Fin (1 # 1000000)))).

(** [max(1, min(10, predicted_replicas))]. *)
Definition clamp_replicas (predicted_replicas : Z) : Z :=
  Z.max 1 (Z.min 10 predicted_replicas).

Definition predict_scaling_decision (service_name : string)
    (current_metrics : gmap string Q) : Eff State Prediction :=
  try_except
    (current_metrics ←
       (if decide (current_metrics = ∅)
        then get_prometheus_metrics service_name
        else mret current_metrics);
     current_replicas ← get_current_replicas service_name;
     models ← gets (λ s, models (self s));
     match models !! "scaling_predictor" with
     | None =>
         mret {| service_name := service_name;
                 current_replicas := current_replicas;
                 recommended_replicas := current_replicas;
                 confidence := Fin 0;
                 reason := "No ML model available";
                 action := "none";
                 timestamp := None;
                 metrics := None;
                 executed := None |}
     | Some model =>
         e ← gets env;
         let features := features current_metrics e in
         scalers ← gets (λ s, scalers (self s));
         match scalers !! "scaling_predictor" with
         | None => raise (KeyError "scaling_predictor")
         | Some scaler =>
             let features_scaled := scaler features in
             let predicted_replicas := py_round (model features_scaled) in
             let predicted_replicas := clamp_replicas predicted_replicas in
             let feature_stability := feature_stability features in
             let confidence :=
               py_min (Fin (95 # 100)) (py_max (Fin (5 # 10)) feature_stability) in
             let '(action, reason) :=
               if (current_replicas <? predicted_replicas)%Z then
                 ("scale_up",
                  "Predicted load increase requires " +:+
                  pretty predicted_replicas +:+ " replicas")
               else if (predicted_replicas <? current_replicas)%Z then
                 ("scale_down",
                  "Predicted load decrease allows reduction to " +:+
                  pretty predicted_replicas +:+ " replicas")
               else ("none", "Current scaling is optimal") in
             last_scaling ←
               gets (λ s, default 0 (last_scaling_times (self s) !! service_name));
             now ← time_time;
             cooldown ← gets (λ s, scaling_cooldown (self s));
             let '(action, reason) :=
               if Qltb (now - last_scaling) (inject_Z cooldown)
               then ("none", "Scaling cooldown period active")
               else (action, reason) in
             stamp ← time_time;
             let prediction (executed : bool) :=
               {| service_name := service_name;
                  current_replicas := current_replicas;
                  recommended_replicas := predicted_replicas;
                  confidence := confidence;
                  reason := reason;
                  action := action;
                  timestamp := Some stamp;
                  metrics := Some current_metrics;
                  executed := Some executed |} in
             threshold ← gets (λ s, confidence_threshold (self s));
             if bool_decide (action ≠ "none")
                && fge confidence threshold
                && bool_decide (predicted_replicas ≠ current_replicas)
             then
               scale_deployment service_name predicted_replicas;;
               now ← time_time;
               modify (with_self (λ c,
                 set_last_scaling_times
                   (<[service_name := now]> (last_scaling_times c)) c));;
               mret (prediction true)
             else
               mret (prediction false)
         end
     end)
    (λ e, raise e).

(** The reading that the next call of [time.time()] returns. *)
Definition next_time (s : State) : Q := clock (env s) (ticks (env s)).

(** The reading that the latest call of [time.time()] returned. *)
Definition last_time (s : State) : Q := clock (env s) (pred (ticks (env s))).

(** [self.last_scaling_times.get(service_name, 0)]. *)
Definition last_scaling (s : State) (service_name : string) : Q :=
  default 0 (last_scaling_times (self s) !! service_name).

End WithCluster.

Arguments Env : clear implicits.
Arguments State : clear implicits.

End Controller.

(** ** Concrete inputs used by the examples *)

Module Fixtures.
Import Py.

(** *** Worker *)

Definition worker_world (now : string) : Worker.World :=
  {| Worker.utcnow := now;
     Worker.SLACK_WEBHOOK_URL := None;
     Worker.broker := [];
     Worker.TASKS_TOTAL := ∅ |}.



(** *** Controller *)

(** A cluster in memory: its deployments, and whether the API answers. *)
Record FakeCluster := {
  deployments : gmap string Controller.V1Deployment;
  reachable : bool
}.

#[export] Instance fake_api : Controller.AppsV1Api FakeCluster := {|
  Controller.read_namespaced_deployment name namespace := λ k,
    if reachable k then
      match deployments k !! name with
      | Some d => (Ok d, k)
      | None => (Raise (ApiException "Not Found"), k)
      end
    else (Raise (ApiException "Connection refused"), k);
  Controller.patch_namespaced_deployment name namespace body := λ k,
    if reachable k then
      match deployments k !! name with
      | Some _ =>
          (Ok tt, {| deployments := <[name := body]> (deployments k);
                     reachable := reachable k |})
      | None => (Raise (ApiException "Not Found"), k)
      end
    else (Raise (ApiException "Connection refused"), k)
|}.

(** Square roots cut after six decimals. *)
#[export] Instance fake_numpy : Controller.Numpy := {|
  Controller.np_sqrt q :=
    Qmake (Z.sqrt (Qfloor (q * 1000000000000))) 1000000
|}.

(** A cluster that runs [api] with the given number of replicas. *)
Definition cluster_with (replicas : Z) (up : bool) : FakeCluster :=
  {| deployments :=
       {[ "api" := {| Controller.spec_replicas := Some replicas |} ]};
     reachable := up |}.

(** A controller with the default configuration (threshold 0.7, cooldown
    300 seconds), connected to Kubernetes, with a model that always
    predicts [raw] when [loaded]. *)
Definition controller (loaded : bool) (raw : Q)
    (last : gmap string Q) : Controller.MLScalingController :=
  {| Controller.confidence_threshold := Controller.default_confidence_threshold;
     Controller.scaling_cooldown := Controller.default_scaling_cooldown;
     Controller.models :=
       if loaded then {[ "scaling_predictor" := λ _, raw ]} else ∅;
     Controller.scalers :=
       if loaded then {[ "scaling_predictor" := λ row, row ]} else ∅;
     Controller.last_scaling_times := last;
     Controller.k8s_apps_v1 := true |}.

(** The clock shows 1000 and advances by one second per reading. *)
Definition environment (k : FakeCluster) : Controller.Env FakeCluster :=
  {| Controller.cluster := k;
     Controller.clock := λ n, 1000 + inject_Z (Z.of_nat n);
     Controller.ticks := 0;
     Controller.now_hour := 12;
     Controller.now_weekday := 2;
     Controller.prometheus := λ _ _, None;
     Controller.scale_results := [] |}.

Definition state (c : Controller.MLScalingController) (k : FakeCluster)
  : Controller.State FakeCluster :=
  {| Controller.self := c; Controller.env := environment k |}.

(** Four equal load metrics: the feature stability is 1. *)
Definition steady : gmap string Q :=
  <["cpu_usage" := 50]>
    (<["memory_usage" := 50]>
       (<["request_rate" := 50]>
          {["response_time" := 50]})).

End Fixtures.


(** ** Exceptions of the HTTP libraries *)

(** The tasks and routes below raise and catch two kinds of exception
    beyond the builtin ones: those of [requests] and the [HTTPException]
    of FastAPI.  [PyX] is the monad of [Py] over this larger type. *)
Module PyX.

Inductive exn :=
  | Builtin (e : Py.exn)
  | RequestException (msg : string)
  | HTTPException (status_code : Z) (detail : string).

Inductive result (A : Type) :=
  | Ok (a : A)
  | Raise (e : exn).
Arguments Ok {A} a.
Arguments Raise {A} e.

Definition Eff (S A : Type) : Type := S → result A * S.

Definition ret {S A} (a : A) : Eff S A := λ s, (Ok a, s).

Definition bind {S A B} (m : Eff S A) (k : A → Eff S B) : Eff S B :=
  λ s, match m s with
       | (Ok a, s') => k a s'
       | (Raise e, s') => (Raise e, s')
       end.

Definition raise {S A} (e : exn) : Eff S A := λ s, (Raise e, s).

(** [try: m except Exception as e: h e]. *)
Definition try_except {S A} (m : Eff S A) (h : exn → Eff S A) : Eff S A :=
  λ s, match m s with
       | (Ok a, s') => (Ok a, s')
       | (Raise e, s') => h e s'
       end.

Definition gets {S A} (f : S → A) : Eff S A := λ s, (Ok (f s), s).
Definition modify {S} (f : S → S) : Eff S unit := λ s, (Ok tt, f s).

#[global] Instance Eff_ret {S} : MRet (Eff S) := λ A, ret.
#[global] Instance Eff_bind {S} : MBind (Eff S) := λ A B k m, bind m k.

(** A computation of [Py], run as it is. *)
Definition builtin {S A} (m : Py.Eff S A) : Eff S A :=
  λ s, match m s with
       | (Py.Ok a, s') => (Ok a, s')
       | (Py.Raise e, s') => (Raise (Builtin e), s')
       end.

(** [for x in xs: body x]. *)
Fixpoint for_each {S A} (xs : list A) (body : A → Eff S unit) : Eff S unit :=
  match xs with
  | [] => ret tt
  | x :: xs' => bind (body x) (λ _, for_each xs' body)
  end.



(** [not s] on an optional string: [None] and the empty string are
    falsy. *)
Definition not_str (s : option string) : bool :=
  match s with
  | None => true
  | Some "" => true
  | Some _ => false
  end.

(** What [requests.get] and [requests.post] do: a response with a status
    code, or a [RequestException]. *)
Inductive answer :=
  | Status (status_code : Z)
  | Fails (msg : string).


Definition respond {S} (a : answer) : Eff S Z :=
  match a with
  | Status status_code => ret status_code
  | Fails msg => raise (RequestException msg)
  end.

End PyX.

(** ** The other worker tasks ([apps/worker/tasks.py]) *)

Module Tasks.
Import Py Worker.

(** The JSON payload of a Slack message. *)
Record SlackPayload := {
  text : string;
  username : string;
  icon_emoji : string
}.

(** The world of [Worker], with the network and the random generator:
    - [http_post url], [http_get url]: what a request to [url] does;
    - [posted]: the requests sent by [requests.post], oldest first;
    - [process_metrics_sent]: the messages of [process_metrics.delay],
      oldest first (the type [Worker.task] has no message for them; the
      order between this list and [broker] is not recorded);
    - [rng_uniform], [rng_poisson], [drawn]: the draw number [drawn] of the
      generator gives [rng_uniform drawn] in the unit interval for a
      uniform sample and [rng_poisson lam drawn] for a Poisson sample.
    The pauses of [time.sleep] are not modelled. *)
Record Net := {
  base : World;
  http_post : string → PyX.answer;
  http_get : string → PyX.answer;
  posted : list (string * SlackPayload);
  process_metrics_sent : list (string * gmap string (list Q));
  rng_uniform : nat → Q;
  rng_poisson : Q → nat → Z;
  drawn : nat
}.

Definition set_base (w : World) (n : Net) : Net :=
  {| base := w; http_post := http_post n; http_get := http_get n;
     posted := posted n; process_metrics_sent := process_metrics_sent n;
     rng_uniform := rng_uniform n; rng_poisson := rng_poisson n;
     drawn := drawn n |}.

Definition set_posted (l : list (string * SlackPayload)) (n : Net) : Net :=
  {| base := base n; http_post := http_post n; http_get := http_get n;
     posted := l; process_metrics_sent := process_metrics_sent n;
     rng_uniform := rng_uniform n; rng_poisson := rng_poisson n;
     drawn := drawn n |}.



(** A computation of [Worker], run on the part [base] of the world. *)
Definition on_base {A} (m : Py.Eff World A) : PyX.Eff Net A :=
  λ n, match m (base n) with
       | (Py.Ok a, w) => (PyX.Ok a, set_base w n)
       | (Py.Raise e, w) => (PyX.Raise (PyX.Builtin e), set_base w n)
       end.

(** The decorator [monitored_task] of [worker.py], as in [Worker]. *)
Definition monitored_task {A} (task_name : string) (func : PyX.Eff Net A)
  : PyX.Eff Net A :=
  PyX.try_except
    (result ← func;
     on_base (TASKS_TOTAL_inc task_name "success");;
     mret result)
    (λ e, on_base (TASKS_TOTAL_inc task_name "failure");; PyX.raise e).

(** [requests.post(url, json=payload)]; the status code is returned. *)
Definition requests_post (url : string) (payload : SlackPayload)
  : PyX.Eff Net Z :=
  PyX.modify (λ n, set_posted (posted n ++ [(url, payload)]) n);;
  answer ← PyX.gets (λ n, http_post n url);
  PyX.respond answer.


Definition send_email_notification (message : string)
    (recipients : list string) : PyX.Eff Net bool :=
  mret true.

Definition send_slack_notification (message : string)
    (webhook_url : option string) : PyX.Eff Net bool :=
  if PyX.not_str webhook_url then mret false
  else
    let payload := {| text := message;
                      username := "AutoServe Bot";
                      icon_emoji := ":robot_face:" |} in
    status_code ← requests_post (default "" webhook_url) payload;
    if (status_code =? 200)%Z then mret true else mret false.

Definition send_sms_notification (message : string)
    (recipients : list string) : PyX.Eff Net bool :=
  mret true.

(** The body of [send_notification]; [webhook_url] is
    [kwargs.get('webhook_url')]. *)
Definition send_notification_func (notification_type message : string)
    (recipients : list string) (webhook_url : option string)
  : PyX.Eff Net bool :=
  PyX.try_except
    (if decide (notification_type = "email") then
       send_email_notification message recipients
     else if decide (notification_type = "slack") then
       send_slack_notification message webhook_url
     else if decide (notification_type = "sms") then
       send_sms_notification message recipients
     else
       PyX.raise (PyX.Builtin (ValueError
         ("Unknown notification type: " +:+ notification_type))))
    (λ e, PyX.raise e).

Definition send_notification (notification_type message : string)
    (recipients : list string) (webhook_url : option string)
  : PyX.Eff Net bool :=
  monitored_task "send_notification"
    (send_notification_func notification_type message recipients webhook_url).

















(** *** The synthetic training data *)

(** [np.clip(x, lo, hi)]. *)
Definition np_clip (x lo hi : Q) : Q :=
  if Qltb x lo then lo else if Qltb hi x then hi else x.

(** One row of [generate_synthetic_training_data]: the column
    [optimal_replicas] from [cpu_usage], [memory_usage] and
    [request_rate]. *)
Definition optimal_replicas (cpu_usage memory_usage request_rate : Q) : Z :=
  let load_score :=
    (cpu_usage * (3 # 10) + memory_usage * (3 # 10) +
     np_clip (request_rate / 100) 0 100 * (4 # 10))%Q in
  Z.max 1 (Z.min 10 (py_round (1 + (load_score / 100) * 9)%Q)).

End Tasks.

(** ** The routes and the model store of the controller
    ([ml-controller/controller.py]) *)

Module App.
Import Py Controller.

(** The outcome of fitting the scaler and the forest in [load_models]:
    the fitted pair, or the exception that one of the calls raised.  The
    seeds are fixed in the source, so every call has the same outcome. *)
Class Sklearn := {
  fit_scaling_predictor : Py.result ((list Q → Q) * (list Q → list Q))
}.

(** [str(e)] for an [HTTPException] with the given status code and detail;
    it depends on the version of the framework. *)
Class FastAPI := {
  HTTPException_str : Z → string → string
}.

(** The dictionary of a request body, with the keys that the routes read. *)
Record Request := {
  req_service_name : option string;
  req_metrics : option (gmap string Q);
  req_replicas : option Z;
  req_namespace : option string
}.

(** The dictionary returned by [retrain_models].  The keys of
    [self.models] are kept as a set: their order is not modelled. *)
Record RetrainResult := {
  rt_status : string;
  rt_message : string;
  rt_models_updated : option (gset string);
  rt_timestamp : Q
}.

(** One row of [generate_synthetic_data]: the target [y] from the columns
    CPU, memory and request rate of [X]. *)
Definition synthetic_target (cpu memory request_rate : Q) : Q :=
  let load_factor :=
    (cpu * (3 # 10) + memory * (3 # 10) + request_rate / 100 * (4 # 10))%Q in
  Tasks.np_clip (inject_Z (py_round (1 + (load_factor / 100) * 9)%Q)) 1 10.

Section WithCluster.
Context {K : Type} `{!AppsV1Api K} `{!Numpy} `{!Sklearn} `{!FastAPI}.

Definition set_models (m : gmap string (list Q → Q))
    (c : MLScalingController) : MLScalingController :=
  {| confidence_threshold := confidence_threshold c;
     scaling_cooldown := scaling_cooldown c;
     models := m; scalers := scalers c;
     last_scaling_times := last_scaling_times c;
     k8s_apps_v1 := k8s_apps_v1 c |}.

Definition set_scalers (m : gmap string (list Q → list Q))
    (c : MLScalingController) : MLScalingController :=
  {| confidence_threshold := confidence_threshold c;
     scaling_cooldown := scaling_cooldown c;
     models := models c; scalers := m;
     last_scaling_times := last_scaling_times c;
     k8s_apps_v1 := k8s_apps_v1 c |}.

Definition load_models : Py.Eff (State K) unit :=
  Py.try_except
    (fitted ← Py.lift fit_scaling_predictor;
     let '(model, scaler) := fitted in
     Py.modify (with_self (λ c,
       set_models (<["scaling_predictor" := model]> (models c)) c));;
     Py.modify (with_self (λ c,
       set_scalers (<["scaling_predictor" := scaler]> (scalers c)) c)))
    (λ e, mret tt).


Definition retrain_models : Py.Eff (State K) RetrainResult :=
  Py.try_except
    (load_models;;
     models_updated ← Py.gets (λ s, dom (models (self s)));
     now ← time_time;
     mret {| rt_status := "success";
             rt_message := "Models retrained successfully";
             rt_models_updated := Some models_updated;
             rt_timestamp := now |})
    (λ e,
     now ← time_time;
     mret {| rt_status := "error";
             rt_message := exn_str e;
             rt_models_updated := None;
             rt_timestamp := now |}).

(** [scale_deployment] with the namespace as an argument. *)
Definition scale_deployment_in (service_name : string) (replicas : Z)
    (namespace : string) : Py.Eff (State K) ScaleResult :=
  result ←
    Py.try_except
      (connected ← Py.gets (λ s, k8s_apps_v1 (self s));
       if negb connected then
         mret {| sr_service_name := service_name;
                 sr_replicas := replicas;
                 sr_status := "simulated";
                 sr_message := "Kubernetes not available" |}
       else
         deployment ← k8s (read_namespaced_deployment service_name namespace);
         let deployment := set_spec_replicas (Some replicas) deployment in
         k8s (patch_namespaced_deployment service_name namespace deployment);;
         mret {| sr_service_name := service_name;
                 sr_replicas := replicas;
                 sr_status := "success";
                 sr_message := "Scaled " +:+ service_name +:+ " to " +:+
                               pretty replicas +:+ " replicas" |})
      (λ e, mret {| sr_service_name := service_name;
                    sr_replicas := replicas;
                    sr_status := "error";
                    sr_message := exn_str e |});
  record_scale_result result.

(** [str(e)]. *)
Definition str (e : PyX.exn) : string :=
  match e with
  | PyX.Builtin e => exn_str e
  | PyX.RequestException msg => msg
  | PyX.HTTPException status_code detail =>
      HTTPException_str status_code detail
  end.

(** The route [POST /predict]. *)
Definition predict_scaling (request : Request)
  : PyX.Eff (State K) Prediction :=
  PyX.try_except
    (let service_name := req_service_name request in
     let current_metrics := default ∅ (req_metrics request) in
     (if PyX.not_str service_name
      then PyX.raise (PyX.HTTPException 400 "service_name is required")
      else mret tt);;
     PyX.builtin
       (predict_scaling_decision (default "" service_name) current_metrics))
    (λ e, PyX.raise (PyX.HTTPException 500 (str e))).

(** The route [POST /scale]. *)
Definition manual_scale (request : Request)
  : PyX.Eff (State K) ScaleResult :=
  PyX.try_except
    (let service_name := req_service_name request in
     let replicas := req_replicas request in
     let namespace := default "default" (req_namespace request) in
     (if PyX.not_str service_name || bool_decide (replicas = None)
      then PyX.raise (PyX.HTTPException 400
                        "service_name and replicas are required")
      else mret tt);;
     PyX.builtin
       (scale_deployment_in (default "" service_name) (default 0%Z replicas)
          namespace))
    (λ e, PyX.raise (PyX.HTTPException 500 (str e))).




End WithCluster.

End App.

(** ** Concrete inputs for the tasks and the routes *)

Module Fixtures2.
Import Py.

(** Every request gets the given answer; the generator draws 1/2 and 3. *)
Definition net (w : Worker.World) (post get : PyX.answer) : Tasks.Net :=
  {| Tasks.base := w;
     Tasks.http_post := λ _, post;
     Tasks.http_get := λ _, get;
     Tasks.posted := [];
     Tasks.process_metrics_sent := [];
     Tasks.rng_uniform := λ _, 1 # 2;
     Tasks.rng_poisson := λ _ _, 3%Z;
     Tasks.drawn := 0 |}.

(** The training succeeds, with a model that always predicts four. *)
#[export] Instance fake_sklearn : App.Sklearn := {|
  App.fit_scaling_predictor := Ok (λ _, 4, λ row, row)
|}.

#[export] Instance fake_fastapi : App.FastAPI := {|
  App.HTTPException_str status_code detail := pretty status_code +:+ ": " +:+ detail
|}.

Definition request (service_name : option string) (replicas : option Z)
  : App.Request :=
  {| App.req_service_name := service_name;
     App.req_metrics := None;
     App.req_replicas := replicas;
     App.req_namespace := None |}.

End Fixtures2.
(** ** Facts about the Python layer *)

Module PyFacts.
Import Py.

Lemma Qltb_lt (x y : Q) : Qltb x y = true ↔ x < y.
Proof.
  unfold Qltb. rewrite Qlt_alt. destruct (x ?= y); split; congruence.
Qed.

Lemma Qltb_ge (x y : Q) : Qltb x y = false ↔ y <= x.
Proof.
  rewrite <- not_true_iff_false, Qltb_lt. split; intros; lra.
Qed.

(** Unfolding of the monad operations. *)
Ltac run :=
  unfold mbind, mret, Eff_bind, Eff_ret, bind, ret, raise, lift, gets,
    modify, try_except in *.

End PyFacts.

(** ** Properties of the worker tasks *)

Module WorkerSpec.
Import Py PyFacts Worker.

Ltac to_Q :=
  unfold fgt, flt in *;
  repeat match goal with
  | H : Qltb _ _ = true |- _ => apply Qltb_lt in H
  | H : Qltb _ _ = false |- _ => apply Qltb_ge in H
  end.

(** The rate that [check_metric_alerts] compares is the share of failed
    requests in percent, and zero when no request was counted. *)
Lemma error_rate_percent (m : MetricSummary) :
  (0 < request_count m →
   error_rate m == error_count m / request_count m * 100) ∧
  (request_count m <= 0 → error_rate m == 0).
Proof.
  unfold error_rate. destruct (Qltb 0 (request_count m)) eqn:H; to_Q.
  - split; intros; [reflexivity | lra].
  - split; intros; [lra | reflexivity].
Qed.




(** *** Aggregation *)



(** C8, as the code has it: on a batch without CPU samples or without
    memory samples, [process_metrics] raises the [ValueError] of
    [np.max]; nothing is returned, nothing is sent to the broker, and the
    run is counted as a failure of the task. *)
Theorem process_metrics_empty_raises_ValueError svc md w :
  default [] (md !! "cpu_values") = [] ∨
  default [] (md !! "memory_values") = [] →
  fst (process_metrics svc md w) = Raise zero_size_error ∧
  exn_name zero_size_error = "ValueError" ∧
  broker (snd (process_metrics svc md w)) = broker w ∧
  TASKS_TOTAL (snd (process_metrics svc md w))
    !! ("process_metrics", "failure")
  = Some (S (default O (TASKS_TOTAL w !! ("process_metrics", "failure")))).
Proof.
  intros Hempty.
  unfold process_metrics, monitored_task, process_metrics_func. run.
  destruct (default [] (md !! "cpu_values")) as [|c cs] eqn:Hc.
  - cbn. repeat split. apply lookup_insert_eq.
  - destruct Hempty as [|Hm]; [discriminate|]. rewrite Hm. cbn.
    repeat split. apply lookup_insert_eq.
Qed.

Lemma process_metrics_empty_raises_ValueError_witness :
  (default [] ((∅ : gmap string (list Q)) !! "cpu_values") = [] ∨
   default [] ((∅ : gmap string (list Q)) !! "memory_values") = []) ∧
  fst (process_metrics "api" ∅ (Fixtures.worker_world "t"))
    = Raise zero_size_error ∧
  exn_name zero_size_error = "ValueError" ∧
  broker (snd (process_metrics "api" ∅ (Fixtures.worker_world "t")))
    = broker (Fixtures.worker_world "t") ∧
  TASKS_TOTAL (snd (process_metrics "api" ∅ (Fixtures.worker_world "t")))
    !! ("process_metrics", "failure")
  = Some (S (default O (TASKS_TOTAL (Fixtures.worker_world "t")
                          !! ("process_metrics", "failure")))).
Proof.
  split; [left; reflexivity|].
  apply (process_metrics_empty_raises_ValueError "api" ∅
           (Fixtures.worker_world "t")).
  left; reflexivity.
Defined.

(** C8 as stated fails: on the empty batch the exception raised is a
    [ValueError], not an [InsufficientDataError]. *)
Lemma process_metrics_empty_not_InsufficientDataError :
  fst (process_metrics "api" ∅ (Fixtures.worker_world "t"))
    = Raise zero_size_error
  ∧ ¬ ∃ e, fst (process_metrics "api" ∅ (Fixtures.worker_world "t"))
             = Raise e ∧
           exn_name e = "InsufficientDataError".
Proof.
  split; [reflexivity|].
  intros (e & Hrun & Hname). vm_compute in Hrun.
  injection Hrun as <-. discriminate.
Qed.



End WorkerSpec.

(** ** Properties of the scaling controller *)

Module ControllerSpec.
Import Py PyFacts Controller.

Section WithCluster.
Context {K : Type} `{!AppsV1Api K} `{!Numpy}.

Implicit Types (s : State K) (svc : string) (cm : gmap string Q).

(** Reading the replica count never raises and touches the cluster only. *)
Lemma get_current_replicas_frame svc s :
  ∃ n k, get_current_replicas svc s = (Ok n, with_env (set_cluster k) s).
Proof.
  unfold get_current_replicas. run. unfold k8s.
  destruct (k8s_apps_v1 (self s)); simpl.
  - destruct (read_namespaced_deployment svc "default" (cluster (env s)))
      as [[d|e] k]; eauto.
  - exists 1%Z, (cluster (env s)). by destruct s as [c []].
Qed.

(** [scale_deployment] never raises; it touches the cluster and records
    the dictionary it returns. *)
Lemma scale_deployment_frame svc n s :
  ∃ r k,
    scale_deployment svc n s
      = (Ok r, with_env (λ e, set_scale_results (scale_results (env s) ++ [r])
                                (set_cluster k e)) s) ∧
    sr_service_name r = svc ∧ sr_replicas r = n.
Proof.
  unfold scale_deployment, record_scale_result. run. unfold k8s.
  destruct (k8s_apps_v1 (self s)); simpl.
  - destruct (read_namespaced_deployment svc "default" (cluster (env s)))
      as [[d|e] k]; simpl.
    + destruct (patch_namespaced_deployment svc "default" _ k)
        as [[[]|e] k']; simpl; eauto.
    + eauto.
  - eexists _, (cluster (env s)). split; [by destruct s as [c []]|done].
Qed.

(** The status of the dictionary that [scale_deployment] returns:
    simulated without a client, error when a call on the client raises
    (the message is the text of the exception), success otherwise. *)
Lemma scale_deployment_status svc n s :
  let k := cluster (env s) in
  ∃ r s', scale_deployment svc n s = (Ok r, s') ∧
    if k8s_apps_v1 (self s) then
      match read_namespaced_deployment svc "default" k with
      | (Raise e, _) => sr_status r = "error" ∧ sr_message r = exn_str e
      | (Ok d, k') =>
          match patch_namespaced_deployment svc "default"
                  (set_spec_replicas (Some n) d) k' with
          | (Raise e, _) => sr_status r = "error" ∧ sr_message r = exn_str e
          | (Ok _, _) => sr_status r = "success"
          end
      end
    else sr_status r = "simulated".
Proof.
  unfold scale_deployment, record_scale_result. run. unfold k8s.
  destruct (k8s_apps_v1 (self s)); simpl; [|eauto].
  destruct (read_namespaced_deployment svc "default" (cluster (env s)))
    as [[d|e] k]; simpl; [|eauto].
  destruct (patch_namespaced_deployment svc "default" _ k)
    as [[[]|e] k']; simpl; eauto.
Qed.

(** Without a client, or when the read raises, one replica is assumed. *)
Lemma get_current_replicas_fails_open svc s :
  k8s_apps_v1 (self s) = false ∨
  (∃ e, fst (read_namespaced_deployment svc "default" (cluster (env s)))
        = Raise e) →
  fst (get_current_replicas svc s) = Ok 1%Z.
Proof.
  unfold get_current_replicas. run. unfold k8s.
  intros [Hnone|[e Hraise]].
  - by rewrite Hnone.
  - destruct (k8s_apps_v1 (self s)); simpl; [|done].
    destruct (read_namespaced_deployment svc "default" (cluster (env s)))
      as [[d|e'] k]; simpl in *; [discriminate|done].
Qed.

(** The metrics that the decision works on: those passed in, or those
    fetched from Prometheus when none are passed. *)
Lemma current_metrics_total svc cm s :
  ∃ cm', (if decide (cm = ∅)
          then get_prometheus_metrics svc
          else mret cm) s = (Ok cm', s).
Proof.
  destruct (decide (cm = ∅)); unfold get_prometheus_metrics; run; eauto.
Qed.

(** Without a model the early return is taken. *)
Lemma predict_no_model svc cm s :
  models (self s) !! "scaling_predictor" = None →
  ∃ cur k,
    predict_scaling_decision svc cm s
    = (Ok {| service_name := svc;
             current_replicas := cur;
             recommended_replicas := cur;
             confidence := Fin 0;
             reason := "No ML model available";
             action := "none";
             timestamp := None;
             metrics := None;
             executed := None |},
       with_env (set_cluster k) s).
Proof.
  intros Hmodel. unfold predict_scaling_decision. run.
  destruct (current_metrics_total svc cm s) as [cm' Hcm]. run. rewrite Hcm.
  destruct (get_current_replicas_frame svc s) as (cur & k & Hcur).
  rewrite Hcur. cbn [self env with_env]. rewrite Hmodel. eauto.
Qed.

(** With a model but no scaler the lookup of the scaler raises. *)
Lemma predict_no_scaler svc cm s model :
  models (self s) !! "scaling_predictor" = Some model →
  scalers (self s) !! "scaling_predictor" = None →
  ∃ k,
    predict_scaling_decision svc cm s
    = (Raise (KeyError "scaling_predictor"), with_env (set_cluster k) s).
Proof.
  intros Hmodel Hscaler. unfold predict_scaling_decision. run.
  destruct (current_metrics_total svc cm s) as [cm' Hcm]. run. rewrite Hcm.
  destruct (get_current_replicas_frame svc s) as (cur & k & Hcur).
  rewrite Hcur. cbn [self env with_env]. rewrite Hmodel.
  cbn [self env with_env]. rewrite Hscaler. eauto.
Qed.

(** The main path, executed symbolically. *)
Lemma predict_with_model svc cm s model scaler :
  models (self s) !! "scaling_predictor" = Some model →
  scalers (self s) !! "scaling_predictor" = Some scaler →
  ∃ cur cm' rsn s',
    let c := self s in
    let e := env s in
    let p := clamp_replicas (py_round (model (scaler (features cm' e)))) in
    let conf :=
      py_min (Fin (95 # 100))
             (py_max (Fin (5 # 10)) (feature_stability (features cm' e))) in
    let cooling :=
      Qltb (next_time s - last_scaling s svc) (inject_Z (scaling_cooldown c)) in
    let act :=
      if cooling then "none"
      else if (cur <? p)%Z then "scale_up"
      else if (p <? cur)%Z then "scale_down"
      else "none" in
    let go :=
      bool_decide (act ≠ "none") && fge conf (confidence_threshold c)
      && bool_decide (p ≠ cur) in
    predict_scaling_decision svc cm s
    = (Ok {| service_name := svc;
             current_replicas := cur;
             recommended_replicas := p;
             confidence := conf;
             reason := rsn;
             action := act;
             timestamp := Some (clock e (S (ticks e)));
             metrics := Some cm';
             executed := Some go |}, s') ∧
    rsn = (if cooling then "Scaling cooldown period active"
           else if (cur <? p)%Z then
             "Predicted load increase requires " +:+ pretty p +:+ " replicas"
           else if (p <? cur)%Z then
             "Predicted load decrease allows reduction to " +:+ pretty p +:+
             " replicas"
           else "Current scaling is optimal") ∧
    clock (env s') = clock e ∧
    if go then
      self s' = set_last_scaling_times
                  (<[svc := clock e (S (S (ticks e)))]> (last_scaling_times c)) c ∧
      ticks (env s') = S (S (S (ticks e))) ∧
      ∃ sr, scale_results (env s') = scale_results e ++ [sr] ∧
            sr_service_name sr = svc ∧ sr_replicas sr = p
    else
      self s' = c ∧
      ticks (env s') = S (S (ticks e)) ∧
      scale_results (env s') = scale_results e.
Proof.
  intros Hmodel Hscaler. unfold predict_scaling_decision. run.
  destruct (current_metrics_total svc cm s) as [cm' Hcm]. run. rewrite Hcm.
  destruct (get_current_replicas_frame svc s) as (cur & k & Hcur).
  rewrite Hcur. cbn [self env with_env]. rewrite Hmodel.
  cbn [self env with_env]. rewrite Hscaler.
  exists cur, cm'. unfold next_time, last_scaling, time_time.
  change (features cm' (set_cluster k (env s))) with (features cm' (env s)).
  set (p := clamp_replicas _). set (conf := py_min _ _).
  destruct (cur <? p)%Z eqn:Hup; [|destruct (p <? cur)%Z eqn:Hdown];
    cbn [self env with_env set_ticks set_cluster clock ticks
         last_scaling_times scaling_cooldown confidence_threshold];
    destruct (Qltb _ _) eqn:Hcool;
    cbn [self env with_env set_ticks set_cluster clock ticks
         last_scaling_times scaling_cooldown confidence_threshold];
    match goal with
    | |- context [bool_decide (?a ≠ "none") && ?b && ?c] =>
        destruct (bool_decide (a ≠ "none") && b && c) eqn:Hgo
    end;
    try (match goal with
         | |- context [scale_deployment svc p ?s0] =>
             destruct (scale_deployment_frame svc p s0)
               as (sr & k' & -> & Hsvc & Hrep)
         end);
    (eexists _, _; split; [reflexivity|]);
    cbn [self env with_env with_self set_ticks set_cluster set_scale_results
         clock ticks scale_results];
    repeat split; eauto.
Qed.


(** *** The clamps *)

Lemma clamp_replicas_bounds (p : Z) : (1 ≤ clamp_replicas p ≤ 10)%Z.
Proof. unfold clamp_replicas. lia. Qed.

Lemma confidence_clamp (x : npfloat) :
  ∃ q, py_min (Fin (95 # 100)) (py_max (Fin (5 # 10)) x) = Fin q ∧
       5 # 10 <= q <= 95 # 100.
Proof.
  unfold py_min, py_max, fgt, flt.
  destruct x as [q| | |]; simpl.
  - destruct (Qltb (5 # 10) q) eqn:Hlo.
    + destruct (Qltb q (95 # 100)) eqn:Hhi.
      * apply Qltb_lt in Hlo, Hhi. exists q. split; [done|lra].
      * exists (95 # 100). split; [done|lra].
    + simpl. exists (5 # 10). split; [done|lra].
  - exists (95 # 100). split; [done|lra].
  - exists (5 # 10). split; [done|lra].
  - exists (5 # 10). split; [done|lra].
Qed.

(** *** The execution gate *)

Lemma gate_iff (cooling : bool) (cur p : Z) (conf thr : npfloat) :
  let act := if cooling then "none"
             else if (cur <? p)%Z then "scale_up"
             else if (p <? cur)%Z then "scale_down"
             else "none" in
  (bool_decide (act ≠ "none") && fge conf thr && bool_decide (p ≠ cur) = true
   ↔ fge conf thr = true ∧ p ≠ cur ∧ cooling = false) ∧
  (act ≠ "none" ↔ p ≠ cur ∧ cooling = false).
Proof.
  intros act.
  assert (Hact : act ≠ "none" ↔ p ≠ cur ∧ cooling = false).
  { subst act. destruct cooling; [split; [done|intros [_ ?]; done]|].
    destruct (Z.ltb_spec cur p); [split; [split; [lia|done]|done]|].
    destruct (Z.ltb_spec p cur); [split; [split; [lia|done]|done]|].
    split; [done|]. intros [? _]. lia. }
  split; [|done].
  rewrite !andb_true_iff, !bool_decide_eq_true, Hact. tauto.
Qed.

(** *** The claims on [predict_scaling_decision] *)

Ltac by_path svc cm s :=
  let model := fresh "model" in
  let scaler := fresh "scaler" in
  let Hmodel := fresh "Hmodel" in
  let Hscaler := fresh "Hscaler" in
  destruct (models (self s) !! "scaling_predictor") as [model|] eqn:Hmodel;
  [ destruct (scalers (self s) !! "scaling_predictor") as [scaler|] eqn:Hscaler;
    [ destruct (predict_with_model svc cm s model scaler Hmodel Hscaler)
        as (cur & cm' & rsn & st & Hrun & Hrsn & Hclock & Hstate)
    | destruct (predict_no_scaler svc cm s model Hmodel Hscaler)
        as (k & Hrun) ]
  | destruct (predict_no_model svc cm s Hmodel) as (cur & k & Hrun) ].

(** C1: the prediction is marked executed exactly when its action is not
    none, its confidence reaches the threshold, the recommended count
    differs from the current one and the cooldown has elapsed; the first
    condition follows from the last two.  [scale_deployment] is called,
    for the service and the recommended count, exactly in that case.  A
    call that raises has dispatched nothing. *)
Theorem predict_executed_iff_gate svc cm s :
  match predict_scaling_decision svc cm s with
  | (Ok r, s') =>
      (executed r = Some true ↔
         action r ≠ "none" ∧
         fge (confidence r) (confidence_threshold (self s)) = true ∧
         recommended_replicas r ≠ current_replicas r ∧
         inject_Z (scaling_cooldown (self s))
           <= next_time s - last_scaling s svc) ∧
      (executed r = Some true ↔
         fge (confidence r) (confidence_threshold (self s)) = true ∧
         recommended_replicas r ≠ current_replicas r ∧
         inject_Z (scaling_cooldown (self s))
           <= next_time s - last_scaling s svc) ∧
      (executed r = Some true ↔
         ∃ sr, scale_results (env s') = scale_results (env s) ++ [sr] ∧
               sr_service_name sr = svc ∧
               sr_replicas sr = recommended_replicas r) ∧
      (executed r ≠ Some true →
         scale_results (env s') = scale_results (env s))
  | (Raise e, s') => scale_results (env s') = scale_results (env s)
  end.
Proof.
  by_path svc cm s; rewrite Hrun; [| done |].
  - cbv zeta in Hrun, Hstate. cbn [executed action confidence
      recommended_replicas current_replicas].
    match goal with |- context [Qltb ?a ?b] => set (cooling := Qltb a b) in * end.
    match type of Hstate with (if ?g then _ else _) => set (go := g) in * end.
    destruct (gate_iff cooling cur
      (clamp_replicas (py_round (model (scaler (features cm' (env s))))))
      (py_min (Fin (95 # 100))
         (py_max (Fin (5 # 10)) (feature_stability (features cm' (env s)))))
      (confidence_threshold (self s))) as [Hgate Hact].
    fold go in Hgate.
    assert (Hcool : cooling = false ↔
      inject_Z (scaling_cooldown (self s)) <= next_time s - last_scaling s svc)
      by apply Qltb_ge.
    assert (Hexec : Some go = Some true ↔ go = true)
      by (split; [by intros [= ->]|by intros ->]).
    split; [rewrite Hexec, Hgate, Hact, Hcool; tauto|].
    split; [rewrite Hexec, Hgate, Hcool; tauto|].
    rewrite Hexec. clear Hexec Hgate Hact Hcool.
    destruct go.
    + destruct Hstate as (_ & _ & sr & Hsr & ? & ?).
      split; [|intros []; done]. split; eauto.
    + destruct Hstate as (_ & _ & Hsr).
      split; [|done]. split; [done|].
      intros (sr & Hsr' & _). rewrite Hsr in Hsr'.
      apply (f_equal length) in Hsr'. rewrite length_app in Hsr'.
      simpl in Hsr'. lia.
  - cbn [executed action confidence recommended_replicas current_replicas
         env with_env set_cluster scale_results].
    repeat split; try done; try (intros [? _]; done).
    + intros (_ & Hne & _). done.
    + intros (sr & Hsr & _). apply (f_equal length) in Hsr.
      rewrite length_app in Hsr. simpl in Hsr. lia.
Qed.

(** While the cooldown runs no prediction is marked executed. *)
Lemma cooldown_blocks svc cm s r s' :
  next_time s - last_scaling s svc < inject_Z (scaling_cooldown (self s)) →
  predict_scaling_decision svc cm s = (Ok r, s') →
  executed r ≠ Some true.
Proof.
  intros Hcool Hret. apply Qltb_lt in Hcool.
  by_path svc cm s; rewrite Hrun in Hret; [| done |]; injection Hret as <- <-.
  - cbn [executed]. rewrite Hcool. cbn [andb].
    rewrite bool_decide_eq_false_2; [done|by intros []].
  - done.
Qed.

(** C2, as the code has it: while less than the cooldown has elapsed since
    the last scaling of the service, the prediction is never marked
    executed, its action is none, [scale_deployment] is not called and the
    last scaling time stays; when a model is loaded the prediction has
    executed false and the cooldown reason. *)
Theorem predict_cooldown_never_executes svc cm s :
  next_time s - last_scaling s svc < inject_Z (scaling_cooldown (self s)) →
  match predict_scaling_decision svc cm s with
  | (Ok r, s') =>
      executed r ≠ Some true ∧
      action r = "none" ∧
      scale_results (env s') = scale_results (env s) ∧
      last_scaling_times (self s') = last_scaling_times (self s) ∧
      (is_Some (models (self s) !! "scaling_predictor") →
       executed r = Some false ∧
       reason r = "Scaling cooldown period active")
  | (Raise e, s') =>
      scale_results (env s') = scale_results (env s) ∧
      last_scaling_times (self s') = last_scaling_times (self s)
  end.
Proof.
  intros Hcool. apply Qltb_lt in Hcool.
  by_path svc cm s; rewrite Hrun; [| done |].
  - cbv zeta in Hstate, Hrsn. rewrite Hcool in Hstate, Hrsn.
    cbn [executed action reason]. rewrite Hcool.
    assert (Hnone : bool_decide ("none" ≠ "none") = false)
      by (by apply bool_decide_eq_false; intros []).
    rewrite Hnone in *. cbn [andb] in *.
    destruct Hstate as (-> & _ & ->). done.
  - cbn. repeat split; done.
Qed.

(** C3, as the code has it: the prediction is marked executed exactly when
    [scale_deployment] was called, whatever the dictionary that the call
    returned (success, simulated or error); in that case the reason is the
    one of the scaling action and the last scaling time of the service is
    set to the clock reading taken after the call.  Otherwise the last
    scaling times are unchanged.  In particular a call that returned the
    status error leaves a prediction marked executed. *)
Theorem predict_executed_iff_scale_called svc cm s r s' :
  predict_scaling_decision svc cm s = (Ok r, s') →
  ((∃ sr, scale_results (env s') = scale_results (env s) ++ [sr])
   ↔ executed r = Some true) ∧
  (executed r = Some true →
     last_scaling_times (self s')
       = <[svc := clock (env s) (S (S (ticks (env s))))]>
           (last_scaling_times (self s)) ∧
     (reason r = "Predicted load increase requires " +:+
                 pretty (recommended_replicas r) +:+ " replicas" ∨
      reason r = "Predicted load decrease allows reduction to " +:+
                 pretty (recommended_replicas r) +:+ " replicas")) ∧
  (executed r ≠ Some true →
     last_scaling_times (self s') = last_scaling_times (self s) ∧
     scale_results (env s') = scale_results (env s)) ∧
  (∀ sr, scale_results (env s') = scale_results (env s) ++ [sr] →
         sr_status sr = "error" →
         executed r = Some true).
Proof.
  intros Hret.
  cut (((∃ sr, scale_results (env s') = scale_results (env s) ++ [sr])
        ↔ executed r = Some true) ∧
       (executed r = Some true →
          last_scaling_times (self s')
            = <[svc := clock (env s) (S (S (ticks (env s))))]>
                (last_scaling_times (self s)) ∧
          (reason r = "Predicted load increase requires " +:+
                      pretty (recommended_replicas r) +:+ " replicas" ∨
           reason r = "Predicted load decrease allows reduction to " +:+
                      pretty (recommended_replicas r) +:+ " replicas")) ∧
       (executed r ≠ Some true →
          last_scaling_times (self s') = last_scaling_times (self s) ∧
          scale_results (env s') = scale_results (env s))).
  { intros (Hiff & Hyes & Hno). repeat split; try tauto.
    intros sr Hsr _. apply Hiff. eauto. }
  assert (Hgrow : ∀ (l : list ScaleResult) sr, l ≠ l ++ [sr]).
  { intros l sr Hl. apply (f_equal length) in Hl.
    rewrite length_app in Hl. simpl in Hl. lia. }
  by_path svc cm s; rewrite Hrun in Hret; [| done |].
  - injection Hret as <- <-. cbv zeta in Hstate, Hrsn.
    cbn [executed reason recommended_replicas].
    match type of Hstate with (if ?g then _ else _) => destruct g eqn:Hgo end.
    + destruct Hstate as (-> & _ & sr & Hsr & _).
      split; [split; eauto|]. split; [|done]. intros _. split; [done|].
      apply gate_iff in Hgo as (_ & Hne & Hcool).
      rewrite Hcool in Hrsn.
      destruct (Z.ltb_spec cur
        (clamp_replicas (py_round (model (scaler (features cm' (env s)))))));
        [by left|].
      destruct (Z.ltb_spec
        (clamp_replicas (py_round (model (scaler (features cm' (env s))))))
        cur); [by right|lia].
    + destruct Hstate as (-> & _ & Hsr). rewrite Hsr.
      split; [split; [intros [sr Hsr']; by apply Hgrow in Hsr'|done]|].
      split; done.
  - injection Hret as <- <-. cbn.
    split; [split; [intros [sr Hsr']; by apply Hgrow in Hsr'|done]|].
    split; done.
Qed.

(** C5, as the code has it: with a model loaded the recommended count lies
    in [1, 10] whatever the model returns; without a model it is the
    current count as read from the cluster. *)
Theorem recommended_replicas_bounds svc cm s r s' :
  predict_scaling_decision svc cm s = (Ok r, s') →
  (is_Some (models (self s) !! "scaling_predictor") →
   (1 ≤ recommended_replicas r ≤ 10)%Z) ∧
  (models (self s) !! "scaling_predictor" = None →
   recommended_replicas r = current_replicas r).
Proof.
  intros Hret.
  by_path svc cm s; rewrite Hrun in Hret; [| done |]; injection Hret as <- <-.
  - split; [|done]. intros _. apply clamp_replicas_bounds.
  - split; [|done]. by intros [? [=]].
Qed.

(** C6: of two calls in immediate succession for the same service and
    metrics, the second one starting less than the cooldown after the last
    clock reading of the first, at most one is marked executed. *)
Theorem predict_twice_at_most_one_executed svc cm s r1 s1 r2 s2 :
  predict_scaling_decision svc cm s = (Ok r1, s1) →
  predict_scaling_decision svc cm s1 = (Ok r2, s2) →
  next_time s1 - last_time s1 < inject_Z (scaling_cooldown (self s)) →
  ¬ (executed r1 = Some true ∧ executed r2 = Some true).
Proof.
  intros Hfirst Hsecond Himm [Hex1 Hex2].
  assert (Hstamp : last_scaling s1 svc = last_time s1 ∧
                   scaling_cooldown (self s1) = scaling_cooldown (self s)).
  { by_path svc cm s; rewrite Hrun in Hfirst; [| done |];
      injection Hfirst as <- <-; [|done].
    cbv zeta in Hstate. cbn [executed] in Hex1. injection Hex1 as Hgo.
    rewrite Hgo in Hstate. destruct Hstate as (Hself & Hticks & _).
    unfold last_scaling, last_time. rewrite Hself, Hticks, Hclock.
    cbn [last_scaling_times set_last_scaling_times scaling_cooldown pred].
    by rewrite lookup_insert_eq. }
  destruct Hstamp as [Hlast Hcd].
  apply (cooldown_blocks svc cm s1 r2 s2); [|done..].
  by rewrite Hlast, Hcd.
Qed.

(** C7, as the code has it: without a model the call returns the
    dictionary of the early return, with action none, confidence 0.0, the
    reason "No ML model available" and no key for the execution; nothing
    is dispatched and the controller is unchanged. *)
Theorem predict_without_model svc cm s :
  models (self s) !! "scaling_predictor" = None →
  ∃ cur s',
    predict_scaling_decision svc cm s
    = (Ok {| service_name := svc;
             current_replicas := cur;
             recommended_replicas := cur;
             confidence := Fin 0;
             reason := "No ML model available";
             action := "none";
             timestamp := None;
             metrics := None;
             executed := None |}, s') ∧
    self s' = self s ∧
    scale_results (env s') = scale_results (env s).
Proof.
  intros Hmodel.
  destruct (predict_no_model svc cm s Hmodel) as (cur & k & Hrun).
  exists cur, (with_env (set_cluster k) s). by rewrite Hrun.
Qed.

(** C10: with a model loaded the confidence of a returned prediction is a
    finite value between 0.5 and 0.95: it is never 1.0, and it passes the
    confidence check of every threshold of at most 0.5. *)
Theorem confidence_bounds svc cm s r s' :
  is_Some (models (self s) !! "scaling_predictor") →
  predict_scaling_decision svc cm s = (Ok r, s') →
  ∃ q, confidence r = Fin q ∧
       5 # 10 <= q <= 95 # 100 ∧
       ¬ q == 1 ∧
       ∀ t, t <= 5 # 10 → fge (confidence r) (Fin t) = true.
Proof.
  intros [model' Hloaded] Hret.
  by_path svc cm s; rewrite Hrun in Hret; [| done | congruence].
  injection Hret as <- <-. cbn [confidence].
  destruct (confidence_clamp (feature_stability (features cm' (env s))))
    as (q & -> & Hq).
  exists q. split; [done|]. split; [done|]. split; [lra|].
  intros t Ht. unfold fge, fle. apply Qle_bool_iff. lra.
Qed.

End WithCluster.

(** *** The claims at concrete inputs *)

Import Fixtures.

(** One decision of the default controller: two replicas run, the model
    asks for five, the metrics are steady and no scaling is on record. *)
Example predict_scales_up :
  let out := predict_scaling_decision "api" steady
               (state (controller true 5 ∅) (cluster_with 2 true)) in
  fst out
  = Ok {| service_name := "api";
          current_replicas := 2;
          recommended_replicas := 5;
          confidence := Fin (95 # 100);
          reason := "Predicted load increase requires 5 replicas";
          action := "scale_up";
          timestamp := Some (1001 # 1);
          metrics := Some steady;
          executed := Some true |}
  ∧ last_scaling_times (self (snd out)) !! "api" = Some (1002 # 1)
  ∧ cluster (env (snd out)) = cluster_with 5 true.
Proof. vm_compute. repeat split. Qed.

Example clamp_replicas_57 : clamp_replicas 57 = 10%Z.
Proof. reflexivity. Qed.

(** A scaling of [api] is on record at time 900; the clock shows 1000. *)
Lemma predict_cooldown_never_executes_witness :
  let s := state (controller true 5 {[ "api" := 900 ]}) (cluster_with 2 true) in
  next_time s - last_scaling s "api" < inject_Z (scaling_cooldown (self s)) ∧
  match predict_scaling_decision "api" steady s with
  | (Ok r, s') =>
      executed r ≠ Some true ∧
      action r = "none" ∧
      scale_results (env s') = scale_results (env s) ∧
      last_scaling_times (self s') = last_scaling_times (self s) ∧
      (is_Some (models (self s) !! "scaling_predictor") →
       executed r = Some false ∧
       reason r = "Scaling cooldown period active")
  | (Raise e, s') =>
      scale_results (env s') = scale_results (env s) ∧
      last_scaling_times (self s') = last_scaling_times (self s)
  end.
Proof.
  split; [reflexivity|].
  apply (predict_cooldown_never_executes "api" steady
           (state (controller true 5 {[ "api" := 900 ]}) (cluster_with 2 true))).
  reflexivity.
Defined.

(** C2 as stated fails: during the cooldown, a controller without a model
    returns a prediction that has no key for the execution and whose
    reason is not the cooldown. *)
Lemma cooldown_without_model_has_no_executed_key :
  let s := state (controller false 5 {[ "api" := 900 ]}) (cluster_with 2 true) in
  next_time s - last_scaling s "api" < inject_Z (scaling_cooldown (self s)) ∧
  fst (predict_scaling_decision "api" steady s)
  = Ok {| service_name := "api";
          current_replicas := 2;
          recommended_replicas := 2;
          confidence := Fin 0;
          reason := "No ML model available";
          action := "none";
          timestamp := None;
          metrics := None;
          executed := None |} ∧
  ¬ ∃ r, fst (predict_scaling_decision "api" steady s) = Ok r ∧
         executed r = Some false ∧
         reason r = "Scaling cooldown period active".
Proof.
  split; [reflexivity|]. split; [reflexivity|].
  intros (r & Hrun & Hex & _). vm_compute in Hrun.
  injection Hrun as <-. discriminate.
Qed.

(** The API of the cluster does not answer: the dispatch fails. *)
Lemma predict_executed_iff_scale_called_witness :
  let s := state (controller true 5 ∅) (cluster_with 2 false) in
  ∃ r s',
    predict_scaling_decision "api" steady s = (Ok r, s') ∧
    ((∃ sr, scale_results (env s') = scale_results (env s) ++ [sr])
     ↔ executed r = Some true) ∧
    (executed r = Some true →
       last_scaling_times (self s')
         = <["api" := clock (env s) (S (S (ticks (env s))))]>
             (last_scaling_times (self s)) ∧
       (reason r = "Predicted load increase requires " +:+
                   pretty (recommended_replicas r) +:+ " replicas" ∨
        reason r = "Predicted load decrease allows reduction to " +:+
                   pretty (recommended_replicas r) +:+ " replicas")) ∧
    (executed r ≠ Some true →
       last_scaling_times (self s') = last_scaling_times (self s) ∧
       scale_results (env s') = scale_results (env s)) ∧
    (∀ sr, scale_results (env s') = scale_results (env s) ++ [sr] →
           sr_status sr = "error" →
           executed r = Some true).
Proof.
  intros s. eexists _, _.
  lazymatch goal with
  | |- _ = (Ok ?r, ?s') ∧ _ =>
      split; [vm_compute; reflexivity|];
      apply (predict_executed_iff_scale_called "api" steady s r s');
      vm_compute; reflexivity
  end.
Defined.

(** C3 as stated fails: the cluster does not answer, [scale_deployment]
    returns an error, and yet the prediction is marked executed, its
    reason does not mention the error, and the last scaling time is set. *)
Lemma predict_failed_dispatch_is_executed :
  let out := predict_scaling_decision "api" steady
               (state (controller true 5 ∅) (cluster_with 2 false)) in
  fst out
  = Ok {| service_name := "api";
          current_replicas := 1;
          recommended_replicas := 5;
          confidence := Fin (95 # 100);
          reason := "Predicted load increase requires 5 replicas";
          action := "scale_up";
          timestamp := Some (1001 # 1);
          metrics := Some steady;
          executed := Some true |}
  ∧ scale_results (env (snd out))
    = [ {| sr_service_name := "api";
           sr_replicas := 5;
           sr_status := "error";
           sr_message := "Connection refused" |} ]
  ∧ last_scaling_times (self (snd out)) !! "api" = Some (1002 # 1)
  ∧ cluster (env (snd out)) = cluster_with 2 false.
Proof. vm_compute. repeat split. Qed.

Lemma recommended_replicas_bounds_witness :
  let s := state (controller true 57 ∅) (cluster_with 2 true) in
  ∃ r s',
    predict_scaling_decision "api" steady s = (Ok r, s') ∧
    recommended_replicas r = 10%Z ∧
    (is_Some (models (self s) !! "scaling_predictor") →
     (1 ≤ recommended_replicas r ≤ 10)%Z) ∧
    (models (self s) !! "scaling_predictor" = None →
     recommended_replicas r = current_replicas r).
Proof.
  intros s. eexists _, _.
  lazymatch goal with
  | |- _ = (Ok ?r, ?s') ∧ _ =>
      split; [vm_compute; reflexivity|]; split; [reflexivity|];
      apply (recommended_replicas_bounds "api" steady s r s');
      vm_compute; reflexivity
  end.
Defined.

(** C5 as stated fails: without a model, on a cluster that runs fifty
    replicas, fifty replicas are recommended. *)
Lemma no_model_recommends_50 :
  fst (predict_scaling_decision "api" steady
         (state (controller false 5 ∅) (cluster_with 50 true)))
  = Ok {| service_name := "api";
          current_replicas := 50;
          recommended_replicas := 50;
          confidence := Fin 0;
          reason := "No ML model available";
          action := "none";
          timestamp := None;
          metrics := None;
          executed := None |}
  ∧ ¬ (1 ≤ 50 ≤ 10)%Z.
Proof. split; [reflexivity|lia]. Qed.

(** The first call scales [api] from two to five replicas; the second
    call starts one second after the last clock reading of the first. *)
Lemma predict_twice_at_most_one_executed_witness :
  let s := state (controller true 5 ∅) (cluster_with 2 true) in
  ∃ r1 s1 r2 s2,
    predict_scaling_decision "api" steady s = (Ok r1, s1) ∧
    predict_scaling_decision "api" steady s1 = (Ok r2, s2) ∧
    next_time s1 - last_time s1 < inject_Z (scaling_cooldown (self s)) ∧
    executed r1 = Some true ∧
    executed r2 = Some false ∧
    ¬ (executed r1 = Some true ∧ executed r2 = Some true).
Proof.
  intros s. eexists _, _, _, _.
  lazymatch goal with
  | |- _ = (Ok ?r1, ?s1) ∧ _ = (Ok ?r2, ?s2) ∧ _ =>
      split; [vm_compute; reflexivity|];
      split; [vm_compute; reflexivity|];
      split; [vm_compute; reflexivity|];
      split; [reflexivity|]; split; [reflexivity|];
      apply (predict_twice_at_most_one_executed "api" steady s r1 s1 r2 s2);
        (vm_compute; reflexivity)
  end.
Defined.

Lemma predict_without_model_witness :
  let s := state (controller false 5 ∅) (cluster_with 2 true) in
  models (self s) !! "scaling_predictor" = None ∧
  ∃ cur s',
    predict_scaling_decision "api" steady s
    = (Ok {| service_name := "api";
             current_replicas := cur;
             recommended_replicas := cur;
             confidence := Fin 0;
             reason := "No ML model available";
             action := "none";
             timestamp := None;
             metrics := None;
             executed := None |}, s') ∧
    self s' = self s ∧
    scale_results (env s') = scale_results (env s).
Proof.
  intros s. split; [reflexivity|].
  apply (predict_without_model "api" steady s). reflexivity.
Defined.

(** C7 as stated fails: the prediction returned without a model has no
    key for the execution, rather than the value false. *)
Lemma no_model_has_no_executed_key :
  let out := fst (predict_scaling_decision "api" steady
                    (state (controller false 5 ∅) (cluster_with 2 true))) in
  out
  = Ok {| service_name := "api";
          current_replicas := 2;
          recommended_replicas := 2;
          confidence := Fin 0;
          reason := "No ML model available";
          action := "none";
          timestamp := None;
          metrics := None;
          executed := None |}
  ∧ ¬ ∃ r, out = Ok r ∧ executed r = Some false.
Proof.
  split; [reflexivity|].
  intros (r & Hrun & Hex). vm_compute in Hrun.
  injection Hrun as <-. discriminate.
Qed.

Lemma confidence_bounds_witness :
  let s := state (controller true 5 ∅) (cluster_with 2 true) in
  is_Some (models (self s) !! "scaling_predictor") ∧
  ∃ r s',
    predict_scaling_decision "api" {[ "cpu_usage" := 92 ]} s = (Ok r, s') ∧
    ∃ q, confidence r = Fin q ∧
         5 # 10 <= q <= 95 # 100 ∧
         ¬ q == 1 ∧
         ∀ t, t <= 5 # 10 → fge (confidence r) (Fin t) = true.
Proof.
  intros s.
  assert (Hloaded : is_Some (models (self s) !! "scaling_predictor"))
    by (eexists; reflexivity).
  split; [exact Hloaded|].
  eexists _, _.
  lazymatch goal with
  | |- _ = (Ok ?r, ?s') ∧ _ =>
      split; [vm_compute; reflexivity|];
      apply (confidence_bounds "api" {[ "cpu_usage" := 92 ]} s r s');
        [exact Hloaded|vm_compute; reflexivity]
  end.
Defined.

End ControllerSpec.

(** ** More facts about the Python layer *)

Module PyFacts2.
Import Py PyFacts.

Lemma py_len_cons {A} (x : A) (xs : list A) :
  py_len (x :: xs) == py_len xs + 1.
Proof.
  unfold py_len. simpl length. rewrite Nat2Z.inj_succ, <- Z.add_1_r.
  by rewrite inject_Z_plus.
Qed.

Lemma py_len_pos {A} (x : A) (xs : list A) : 0 < py_len (x :: xs).
Proof.
  unfold py_len. change 0 with (inject_Z 0). rewrite <- Zlt_Qlt.
  simpl length. lia.
Qed.


Lemma py_sum_ge (xs : list Q) (lo : Q) :
  Forall (λ x, lo <= x) xs → py_len xs * lo <= py_sum xs.
Proof.
  induction 1 as [|x xs Hx _ IH].
  - unfold py_sum, py_len. simpl. change (inject_Z (Z.of_nat 0)) with 0. lra.
  - rewrite py_len_cons. unfold py_sum in *. simpl. lra.
Qed.


Lemma np_mean_ge (xs : list Q) (lo : Q) :
  xs ≠ [] →
  Forall (λ x, lo <= x) xs →
  ∃ m, np_mean xs = Fin m ∧ lo <= m.
Proof.
  intros Hne Hall. destruct xs as [|x xs]; [done|].
  exists (py_sum (x :: xs) / py_len (x :: xs)). split; [done|].
  apply Qle_shift_div_l; [apply py_len_pos|]. rewrite Qmult_comm.
  by apply py_sum_ge.
Qed.





(** Unfolding of the monad operations of [PyX]. *)
Ltac runx :=
  unfold mbind, mret, PyX.Eff_bind, PyX.Eff_ret, PyX.bind, PyX.ret,
    PyX.raise, PyX.gets, PyX.modify, PyX.try_except, PyX.respond,
    PyX.builtin in *.

End PyFacts2.

(** ** More properties of the worker tasks *)

Module WorkerMore.
Import Py PyFacts PyFacts2 Worker WorkerSpec.











End WorkerMore.

(** ** Properties of the other worker tasks *)

Module TasksSpec.
Import Py PyFacts PyFacts2 Worker WorkerSpec WorkerMore Tasks.

(** *** Notifications *)

(** X5: [send_notification] with a type other than email, slack and sms
    raises a [ValueError] that names the type; nothing is posted and the
    run is counted as a failure. *)
Theorem send_notification_unknown_type ty msg recipients url n :
  ty ∉ ["email"; "slack"; "sms"] →
  ∃ n',
    send_notification ty msg recipients url n
    = (PyX.Raise (PyX.Builtin
         (ValueError ("Unknown notification type: " +:+ ty))), n') ∧
    posted n' = posted n ∧
    broker (base n') = broker (base n) ∧
    TASKS_TOTAL (base n') !! ("send_notification", "failure")
    = Some (S (default O
         (TASKS_TOTAL (base n) !! ("send_notification", "failure")))).
Proof.
  intros Hty.
  unfold send_notification, monitored_task, send_notification_func. runx.
  repeat case_decide; subst;
    try solve [exfalso; apply Hty; repeat (first [by left | right])].
  cbn. eexists. split; [reflexivity|]. cbn. repeat split.
  apply lookup_insert_eq.
Qed.

Lemma send_notification_unknown_type_witness :
  let n := Fixtures2.net (Fixtures.worker_world "t") (PyX.Status 200)
             (PyX.Status 200) in
  ("pager" ∉ ["email"; "slack"; "sms"]) ∧
  ∃ n',
    send_notification "pager" "disk full" [] None n
    = (PyX.Raise (PyX.Builtin
         (ValueError ("Unknown notification type: " +:+ "pager"))), n') ∧
    posted n' = posted n ∧
    broker (base n') = broker (base n) ∧
    TASKS_TOTAL (base n') !! ("send_notification", "failure")
    = Some (S (default O
         (TASKS_TOTAL (base n) !! ("send_notification", "failure")))).
Proof.
  intros n.
  assert (H : "pager" ∉ ["email"; "slack"; "sms"]).
  { intros H. repeat (apply elem_of_cons in H as [H|H]; [discriminate|]).
    by apply elem_of_nil in H. }
  split; [exact H|].
  exact (send_notification_unknown_type "pager" "disk full" [] None n H).
Defined.

(** The payload that [send_slack_notification] posts. *)
Lemma send_notification_slack_run msg recipients url n :
  let out := send_notification "slack" msg recipients url n in
  let payload := {| text := msg; username := "AutoServe Bot";
                    icon_emoji := ":robot_face:" |} in
  if PyX.not_str url then
    fst out = PyX.Ok false ∧ posted (snd out) = posted n
  else
    posted (snd out) = posted n ++ [(default "" url, payload)] ∧
    fst out = match http_post n (default "" url) with
              | PyX.Status c => PyX.Ok (c =? 200)%Z
              | PyX.Fails m => PyX.Raise (PyX.RequestException m)
              end.
Proof.
  unfold send_notification, monitored_task, send_notification_func,
    send_slack_notification, requests_post. runx.
  destruct (decide ("slack" = "email")) as [[=]|_].
  destruct (decide ("slack" = "slack")) as [_|[]]; [|done].
  destruct (PyX.not_str url); cbn; [done|].
  destruct (http_post n (default "" url)) as [c|m]; cbn; [|done].
  destruct (c =? 200)%Z; done.
Qed.

(** X6: a Slack notification returns [True] exactly when a webhook is
    given and the post is answered with status 200.  One request is posted
    when a webhook is given and none otherwise: a missing or empty webhook
    gives [False] without any request. *)
Theorem send_notification_slack_true_iff msg recipients url n :
  let out := send_notification "slack" msg recipients url n in
  (fst out = PyX.Ok true ↔
     PyX.not_str url = false ∧
     http_post n (default "" url) = PyX.Status 200) ∧
  posted (snd out)
  = posted n ++
    (if PyX.not_str url then []
     else [(default "" url,
            {| text := msg; username := "AutoServe Bot";
               icon_emoji := ":robot_face:" |})]).
Proof.
  pose proof (send_notification_slack_run msg recipients url n) as Hrun.
  cbv zeta in *. destruct (PyX.not_str url).
  - destruct Hrun as [-> ->]. rewrite app_nil_r.
    split; [|done]. split; [done|]. by intros [[=] _].
  - destruct Hrun as [-> ->]. split; [|done].
    destruct (http_post n (default "" url)) as [c|m].
    + destruct (Z.eqb_spec c 200) as [->|Hc].
      * done.
      * split; [done|]. intros [_ [= ?]]. done.
    + split; [done|]. by intros [_ [=]].
Qed.



(** *** Health checks *)



(** *** Collection *)











End TasksSpec.

(** ** The synthetic training targets *)

Module SyntheticSpec.
Import Py PyFacts.

(** [round] moves a value by at most one half. *)
Lemma py_round_near (q : Q) :
  inject_Z (py_round q) - (1 # 2) <= q <= inject_Z (py_round q) + (1 # 2).
Proof.
  unfold py_round.
  pose proof (Qfloor_le q) as Hlo. pose proof (Qlt_floor q) as Hhi.
  rewrite inject_Z_plus in Hhi. change (inject_Z 1) with 1 in Hhi.
  destruct (Qcompare_spec (q - inject_Z (Qfloor q)) (1 # 2)) as [He|Hl|Hg].
  - destruct (Z.even (Qfloor q)).
    + lra.
    + rewrite inject_Z_plus. change (inject_Z 1) with 1. lra.
  - lra.
  - rewrite inject_Z_plus. change (inject_Z 1) with 1. lra.
Qed.

Lemma py_round_ge (q : Q) (z : Z) :
  inject_Z z - (1 # 2) < q → (z ≤ py_round q)%Z.
Proof.
  intros Hq. destruct (py_round_near q) as [_ Hhi].
  apply Z.lt_succ_r. rewrite <- Z.add_1_r, Zlt_Qlt, inject_Z_plus.
  change (inject_Z 1) with 1. lra.
Qed.

Lemma py_round_le (q : Q) (z : Z) :
  q < inject_Z z + (1 # 2) → (py_round q ≤ z)%Z.
Proof.
  intros Hq. destruct (py_round_near q) as [Hlo _].
  apply Z.lt_succ_r. rewrite <- Z.add_1_r, Zlt_Qlt, inject_Z_plus.
  change (inject_Z 1) with 1. lra.
Qed.

Lemma np_clip_bounds (x lo hi : Q) :
  lo <= hi → lo <= Tasks.np_clip x lo hi <= hi.
Proof.
  intros Hle. unfold Tasks.np_clip.
  destruct (Qltb x lo) eqn:Hlo; [lra|]. apply Qltb_ge in Hlo.
  destruct (Qltb hi x) eqn:Hhi; [lra|]. apply Qltb_ge in Hhi. lra.
Qed.

(** X12: for rows in the ranges that [generate_synthetic_training_data]
    draws from (CPU in 10..95, memory in 20..90, a request rate that is
    not negative), the column [optimal_replicas] lies between 2 and 10: the
    value 1 never occurs among the training targets of the worker. *)
Theorem optimal_replicas_range (cpu mem rate : Q) :
  10 <= cpu <= 95 →
  20 <= mem <= 90 →
  0 <= rate →
  (2 ≤ Tasks.optimal_replicas cpu mem rate ≤ 10)%Z.
Proof.
  intros Hcpu Hmem Hrate. unfold Tasks.optimal_replicas.
  pose proof (np_clip_bounds (rate / 100) 0 100) as Hclip.
  set (c := Tasks.np_clip (rate / 100) 0 100) in *.
  assert (Hc : 0 <= c <= 100) by (apply Hclip; lra).
  assert (2 ≤ py_round
            (1 + (cpu * (3 # 10) + mem * (3 # 10) + c * (4 # 10)) / 100 * 9))%Z.
  { apply py_round_ge. change (inject_Z 2) with 2.
    unfold Qdiv. change (/ 100) with (1 # 100). lra. }
  lia.
Qed.

Lemma optimal_replicas_range_witness :
  10 <= 10 <= 95 ∧ 20 <= 20 <= 90 ∧ 0 <= 0 ∧
  Tasks.optimal_replicas 10 20 0 = 2%Z ∧
  (2 ≤ Tasks.optimal_replicas 10 20 0 ≤ 10)%Z.
Proof.
  assert (H1 : 10 <= 10 <= 95) by lra.
  assert (H2 : 20 <= 20 <= 90) by lra.
  assert (H3 : 0 <= 0) by lra.
  split; [exact H1|]. split; [exact H2|]. split; [exact H3|].
  split; [reflexivity|].
  exact (optimal_replicas_range 10 20 0 H1 H2 H3).
Defined.

(** X13: for rows in the ranges that [generate_synthetic_data] draws from
    (CPU and memory in 0..100, request rate in 0..1000), the target lies
    between 1 and 7 and the clip to 1..10 changes nothing: the model of the
    controller is fitted to targets of at most seven replicas. *)
Theorem synthetic_target_range (cpu mem rate : Q) :
  0 <= cpu < 100 →
  0 <= mem < 100 →
  0 <= rate < 1000 →
  ∃ y : Z,
    App.synthetic_target cpu mem rate = inject_Z y ∧
    y = py_round
          (1 + (cpu * (3 # 10) + mem * (3 # 10) + rate / 100 * (4 # 10))
               / 100 * 9) ∧
    (1 ≤ y ≤ 7)%Z.
Proof.
  intros Hcpu Hmem Hrate. unfold App.synthetic_target.
  set (q := 1 + (cpu * (3 # 10) + mem * (3 # 10) + rate / 100 * (4 # 10))
                / 100 * 9).
  assert (Hq : 1 <= q < 676 # 100).
  { subst q. unfold Qdiv. change (/ 100) with (1 # 100). lra. }
  assert (Hlo : (1 ≤ py_round q)%Z)
    by (apply py_round_ge; change (inject_Z 1) with 1; lra).
  assert (Hhi : (py_round q ≤ 7)%Z)
    by (apply py_round_le; change (inject_Z 7) with 7; lra).
  exists (py_round q). split; [|done].
  unfold Tasks.np_clip.
  assert (Qltb (inject_Z (py_round q)) 1 = false) as ->.
  { apply Qltb_ge. change 1 with (inject_Z 1). by rewrite <- Zle_Qle. }
  assert (Qltb 10 (inject_Z (py_round q)) = false) as ->.
  { apply Qltb_ge. change 10 with (inject_Z 10). rewrite <- Zle_Qle. lia. }
  done.
Qed.

Lemma synthetic_target_range_witness :
  0 <= 99 < 100 ∧ 0 <= 99 < 100 ∧ 0 <= 999 < 1000 ∧
  ∃ y : Z,
    App.synthetic_target 99 99 999 = inject_Z y ∧
    y = py_round
          (1 + (99 * (3 # 10) + 99 * (3 # 10) + 999 / 100 * (4 # 10))
               / 100 * 9) ∧
    (1 ≤ y ≤ 7)%Z.
Proof.
  assert (H1 : 0 <= 99 < 100) by lra.
  assert (H2 : 0 <= 999 < 1000) by lra.
  split; [exact H1|]. split; [exact H1|]. split; [exact H2|].
  exact (synthetic_target_range 99 99 999 H1 H1 H2).
Defined.

End SyntheticSpec.

(** ** More properties of the scaling controller *)

Module ControllerMore.
Import Py PyFacts Controller ControllerSpec.

(** The three paths of [predict_scaling_decision]. *)
Ltac paths svc cm s :=
  let model := fresh "model" in
  let scaler := fresh "scaler" in
  let Hmodel := fresh "Hmodel" in
  let Hscaler := fresh "Hscaler" in
  destruct (models (self s) !! "scaling_predictor") as [model|] eqn:Hmodel;
  [ destruct (scalers (self s) !! "scaling_predictor") as [scaler|] eqn:Hscaler;
    [ destruct (predict_with_model svc cm s model scaler Hmodel Hscaler)
        as (cur & cm' & rsn & st & Hrun & Hrsn & Hclock & Hstate)
    | destruct (predict_no_scaler svc cm s model Hmodel Hscaler)
        as (k & Hrun) ]
  | destruct (predict_no_model svc cm s Hmodel) as (cur & k & Hrun) ].

Section WithCluster.
Context {K : Type} `{!AppsV1Api K} `{!Numpy}.

Implicit Types (s : State K) (svc : string) (cm : gmap string Q).

(** The dictionary that [get_prometheus_metrics] builds. *)
Lemma get_prometheus_metrics_run svc s :
  get_prometheus_metrics svc s
  = (Ok (<["day_of_week" := inject_Z (now_weekday (env s))]>
           (<["hour_of_day" := inject_Z (now_hour (env s))]>
              (<["error_rate" := default 0 (prometheus (env s) svc "error_rate")]>
                 (<["response_time" :=
                      default 0 (prometheus (env s) svc "response_time")]>
                    (<["request_rate" :=
                         default 0 (prometheus (env s) svc "request_rate")]>
                       (<["memory_usage" :=
                            default 0 (prometheus (env s) svc "memory_usage")]>
                          (<["cpu_usage" :=
                               default 0 (prometheus (env s) svc "cpu_usage")]>
                             ∅))))))),
     s).
Proof. reflexivity. Qed.


(** The metrics of a prediction of the main path are those that the
    decision works on, and its confidence is computed from them. *)
Lemma predict_metrics svc cm cm0 s model scaler r s' :
  (if decide (cm = ∅) then get_prometheus_metrics svc else mret cm) s
    = (Ok cm0, s) →
  models (self s) !! "scaling_predictor" = Some model →
  scalers (self s) !! "scaling_predictor" = Some scaler →
  predict_scaling_decision svc cm s = (Ok r, s') →
  metrics r = Some cm0 ∧
  confidence r
  = py_min (Fin (95 # 100))
      (py_max (Fin (5 # 10)) (feature_stability (features cm0 (env s)))).
Proof.
  intros Hcm Hmodel Hscaler. unfold predict_scaling_decision. run.
  run. rewrite Hcm.
  destruct (get_current_replicas_frame svc s) as (cur & k & Hcur).
  rewrite Hcur. cbn [self env with_env]. rewrite Hmodel.
  cbn [self env with_env]. rewrite Hscaler.
  unfold time_time.
  change (features cm0 (set_cluster k (env s))) with (features cm0 (env s)).
  set (p := clamp_replicas _). set (conf := py_min _ _).
  destruct (cur <? p)%Z eqn:Hup; [|destruct (p <? cur)%Z eqn:Hdown];
    cbn [self env with_env set_ticks set_cluster clock ticks
         last_scaling_times scaling_cooldown confidence_threshold];
    destruct (Qltb _ _) eqn:Hcool;
    cbn [self env with_env set_ticks set_cluster clock ticks
         last_scaling_times scaling_cooldown confidence_threshold];
    match goal with
    | |- context [bool_decide (?a ≠ "none") && ?b && ?c] =>
        destruct (bool_decide (a ≠ "none") && b && c) eqn:Hgo
    end;
    try (match goal with
         | |- context [scale_deployment svc p ?s0] =>
             destruct (scale_deployment_frame svc p s0)
               as (sr & k' & -> & Hsvc & Hrep)
         end);
    by intros [= <- <-].
Qed.

(** With the four load metrics at zero the feature stability is one. *)
Lemma feature_stability_zero (h d : Q) :
  (∀ q, q == 0 → np_sqrt q == 0) →
  ∃ x, feature_stability [0; 0; 0; 0; h; d] = Fin x ∧ x == 1.
Proof.
  intros Hsqrt. unfold feature_stability, np_std. simpl take.
  unfold np_mean at 1 3. 
  set (m := py_sum [0; 0; 0; 0] / py_len [0; 0; 0; 0]).
  unfold np_mean.
  set (v := py_sum ((λ x, (x - m) * (x - m)) <$> [0; 0; 0; 0])
            / py_len ((λ x, (x - m) * (x - m)) <$> [0; 0; 0; 0])).
  assert (Hv : np_sqrt v == 0) by (apply Hsqrt; reflexivity).
  unfold fadd, fdiv, fsub, fopp.
  change (m + (1 # 1000000) ?= 0) with Gt. cbv iota.
  eexists. split; [reflexivity|]. rewrite Hv. reflexivity.
Qed.

(** X15: when Prometheus gives no value for any query, a decision
    requested without metrics is taken on four load metrics of 0.0 and,
    since their deviation is zero, with the highest confidence, 0.95. *)
Theorem predict_without_prometheus_is_confident svc s model scaler r s' :
  (∀ q, q == 0 → np_sqrt q == 0) →
  (∀ metric, prometheus (env s) svc metric = None) →
  models (self s) !! "scaling_predictor" = Some model →
  scalers (self s) !! "scaling_predictor" = Some scaler →
  predict_scaling_decision svc ∅ s = (Ok r, s') →
  confidence r = Fin (95 # 100) ∧
  ∃ m, metrics r = Some m ∧
       Forall (λ metric, m !! metric = Some 0) queries.
Proof.
  intros Hsqrt Hdown Hmodel Hscaler Hret.
  edestruct (predict_metrics svc ∅) as [Hm Hconf];
    [|exact Hmodel|exact Hscaler|exact Hret|].
  { rewrite decide_True by done. apply get_prometheus_metrics_run. }
  rewrite Hconf, Hm. clear Hconf Hm. split.
  - unfold features. simplify_map_eq. rewrite ?Hdown. simpl default.
    destruct (feature_stability_zero (inject_Z (now_hour (env s)))
                (inject_Z (now_weekday (env s))) Hsqrt) as (x & -> & Hx).
    unfold py_max, py_min, fgt, flt.
    assert (Qltb (5 # 10) x = true) as -> by (apply Qltb_lt; lra).
    assert (Qltb x (95 # 100) = false) as -> by (apply Qltb_ge; lra).
    done.
  - eexists. split; [reflexivity|]. unfold queries.
    repeat (apply Forall_cons; split;
            [by simplify_map_eq; rewrite ?Hdown|]).
    by constructor.
Qed.

(** X16: [get_current_replicas] never raises and never returns 0: without
    a client, after a failed read, and for a deployment whose replica
    count is unset or 0, it returns 1; otherwise it returns the count
    read.  Only the cluster may have changed. *)
Theorem get_current_replicas_never_zero svc s :
  ∃ n s',
    get_current_replicas svc s = (Ok n, s') ∧
    n ≠ 0%Z ∧
    self s' = self s ∧
    scale_results (env s') = scale_results (env s) ∧
    ticks (env s') = ticks (env s) ∧
    n = (if k8s_apps_v1 (self s) then
           match fst (read_namespaced_deployment svc "default"
                        (cluster (env s))) with
           | Ok d => match spec_replicas d with
                     | None | Some 0%Z => 1%Z
                     | Some count => count
                     end
           | Raise _ => 1%Z
           end
         else 1%Z).
Proof.
  unfold get_current_replicas. run. unfold k8s.
  destruct (k8s_apps_v1 (self s)); simpl.
  - destruct (read_namespaced_deployment svc "default" (cluster (env s)))
      as [[d|e] k]; simpl.
    + eexists _, _. split; [reflexivity|]. simpl.
      destruct (spec_replicas d) as [[|p|p]|]; simpl; done.
    + eexists _, _. split; [reflexivity|]. done.
  - eexists _, _. split; [reflexivity|]. done.
Qed.

(** X17: [scale_deployment] never raises.  Its status is one of
    simulated, success and error: simulated exactly without a client, and
    success exactly when, with a client, both the read and the patch of the
    deployment return; whatever the status, the dictionary names the
    service and the replica count asked for, unclamped. *)
Theorem scale_deployment_outcome svc n s :
  ∃ r s',
    scale_deployment svc n s = (Ok r, s') ∧
    sr_service_name r = svc ∧ sr_replicas r = n ∧
    self s' = self s ∧
    scale_results (env s') = scale_results (env s) ++ [r] ∧
    sr_status r ∈ ["simulated"; "success"; "error"] ∧
    (sr_status r = "simulated" ↔ k8s_apps_v1 (self s) = false) ∧
    (sr_status r = "success" ↔
       k8s_apps_v1 (self s) = true ∧
       ∃ d k, read_namespaced_deployment svc "default" (cluster (env s))
              = (Ok d, k) ∧
              fst (patch_namespaced_deployment svc "default"
                     (set_spec_replicas (Some n) d) k) = Ok tt).
Proof.
  unfold scale_deployment, record_scale_result. run. unfold k8s.
  destruct (k8s_apps_v1 (self s)); simpl.
  - destruct (read_namespaced_deployment svc "default" (cluster (env s)))
      as [[d|e] k]; simpl.
    + destruct (patch_namespaced_deployment svc "default" _ k)
        as [[[]|e] k'] eqn:Hpatch; simpl.
      * eexists _, _. split; [reflexivity|]. simpl. split_and!; try done.
        -- by right; left.
        -- split; [|done]. intros _. split; [done|].
           exists d, k. by rewrite Hpatch.
      * eexists _, _. split; [reflexivity|]. simpl. split_and!; try done.
        -- by do 2 right; left.
        -- split; [done|].
           intros (_ & d' & k'' & [= <- <-] & Hp). by rewrite Hpatch in Hp.
    + eexists _, _. split; [reflexivity|]. simpl. split_and!; try done.
      * by do 2 right; left.
      * split; [done|]. by intros (_ & d' & k'' & [=] & _).
  - eexists _, _. split; [reflexivity|]. simpl. split_and!; try done.
    + by left.
    + split; [done|]. by intros [[=] _].
Qed.

(** X18: the action of a prediction agrees with its replica counts: it
    is scale_up only if more replicas are recommended than run, scale_down
    only if fewer are, and none otherwise; while the counts differ the
    action is none only during the cooldown. *)
Theorem predict_action_follows_replicas svc cm s r s' :
  predict_scaling_decision svc cm s = (Ok r, s') →
  ((action r = "scale_up" ∧ (current_replicas r < recommended_replicas r)%Z) ∨
   (action r = "scale_down" ∧ (recommended_replicas r < current_replicas r)%Z) ∨
   action r = "none") ∧
  (action r = "none" →
   recommended_replicas r ≠ current_replicas r →
   next_time s - last_scaling s svc < inject_Z (scaling_cooldown (self s))).
Proof.
  intros Hret.
  paths svc cm s; rewrite Hrun in Hret; [| done |]; injection Hret as <- <-.
  - cbn [action current_replicas recommended_replicas].
    destruct (Qltb _ _) eqn:Hcool.
    + split; [by do 2 right|]. intros _ _. by apply Qltb_lt.
    + set (p := clamp_replicas _).
      destruct (Z.ltb_spec cur p); [split; [by left|done]|].
      destruct (Z.ltb_spec p cur); [split; [by right; left|done]|].
      split; [by do 2 right|]. intros _ Hne. lia.
  - cbn. split; [by do 2 right|]. done.
Qed.


(** X19: a decision for one service writes nothing of the controller but
    the last scaling time of that service: the configuration, the models
    and the scalers stay, and so do the last scaling times of all other
    services, whose cooldowns are therefore not started. *)
Theorem predict_touches_one_service svc cm s :
  let s' := snd (predict_scaling_decision svc cm s) in
  confidence_threshold (self s') = confidence_threshold (self s) ∧
  scaling_cooldown (self s') = scaling_cooldown (self s) ∧
  k8s_apps_v1 (self s') = k8s_apps_v1 (self s) ∧
  models (self s') = models (self s) ∧
  scalers (self s') = scalers (self s) ∧
  ∀ other, other ≠ svc → last_scaling s' other = last_scaling s other.
Proof.
  paths svc cm s; rewrite Hrun; [| done..].
  cbv zeta in Hstate. simpl snd.
  match type of Hstate with (if ?g then _ else _) => destruct g end.
  - destruct Hstate as (Hself & _). unfold last_scaling. rewrite Hself.
    cbn. split_and!; try done. intros other Hne.
    by rewrite lookup_insert_ne.
  - destruct Hstate as (Hself & _). unfold last_scaling. by rewrite Hself.
Qed.

(** X20: with a confidence threshold above 0.95, infinite or not a
    number, no prediction is ever executed: the confidence never passes
    such a threshold. *)
Theorem predict_threshold_above_cap_never_executes svc cm s r s' :
  match confidence_threshold (self s) with
  | Fin t => 95 # 100 < t
  | PInf | NaN => True
  | NInf => False
  end →
  predict_scaling_decision svc cm s = (Ok r, s') →
  executed r ≠ Some true ∧
  scale_results (env s') = scale_results (env s) ∧
  last_scaling_times (self s') = last_scaling_times (self s).
Proof.
  intros Hthr Hret.
  paths svc cm s; rewrite Hrun in Hret; [| done |]; injection Hret as <- <-.
  - cbv zeta in Hstate. cbn [executed].
    destruct (confidence_clamp (feature_stability (features cm' (env s))))
      as (q & Hq & Hrange).
    rewrite Hq in Hstate |- *.
    assert (Hfail : fge (Fin q) (confidence_threshold (self s)) = false).
    { unfold fge, fle. destruct (confidence_threshold (self s)) as [t| | |];
        try done.
      apply not_true_iff_false. rewrite Qle_bool_iff. lra. }
    rewrite Hfail, andb_false_r in Hstate |- *. simpl in Hstate |- *.
    destruct Hstate as (-> & _ & ->). done.
  - done.
Qed.

(** X28: a decision calls [scale_deployment] at most once, for its own
    service and with a replica count between 1 and 10: the automatic path
    never asks the cluster for a count outside these bounds. *)
Theorem predict_dispatch_is_bounded svc cm s :
  let s' := snd (predict_scaling_decision svc cm s) in
  ∃ l, scale_results (env s') = scale_results (env s) ++ l ∧
       (length l ≤ 1)%nat ∧
       Forall (λ sr, sr_service_name sr = svc ∧
                     (1 ≤ sr_replicas sr ≤ 10)%Z) l.
Proof.
  paths svc cm s; rewrite Hrun; simpl snd; cbv zeta.
  - cbv zeta in Hstate.
    match type of Hstate with (if ?g then _ else _) => destruct g end.
    + destruct Hstate as (_ & _ & sr & -> & Hsvc & Hrep).
      exists [sr]. split; [done|]. split; [simpl; lia|].
      constructor; [|done]. split; [done|]. rewrite Hrep.
      apply clamp_replicas_bounds.
    + destruct Hstate as (_ & _ & ->). exists []. rewrite app_nil_r. split_and!; [done|simpl; lia|constructor].
  - exists []. rewrite app_nil_r. split_and!; [done|simpl; lia|constructor].
  - exists []. rewrite app_nil_r. split_and!; [done|simpl; lia|constructor].
Qed.

End WithCluster.

Import Fixtures Fixtures2.

(** Runs the decision of a witness and passes on what it returns. *)
Ltac ran k :=
  eexists _, _;
  lazymatch goal with
  | |- _ = (_ ?r, ?s') ∧ _ => split; [vm_compute; reflexivity|]; k r s'
  end.

Lemma predict_action_follows_replicas_witness :
  let s := Fixtures.state (Fixtures.controller true 5 ∅)
             (Fixtures.cluster_with 8 true) in
  ∃ r s',
    predict_scaling_decision "api" Fixtures.steady s = (Ok r, s') ∧
    action r = "scale_down" ∧
    ((action r = "scale_up" ∧ (current_replicas r < recommended_replicas r)%Z) ∨
     (action r = "scale_down" ∧
      (recommended_replicas r < current_replicas r)%Z) ∨
     action r = "none") ∧
    (action r = "none" →
     recommended_replicas r ≠ current_replicas r →
     next_time s - last_scaling s "api" < inject_Z (scaling_cooldown (self s))).
Proof.
  intros s. ran ltac:(fun r s' =>
    split; [reflexivity|];
    apply (predict_action_follows_replicas "api" Fixtures.steady s r s');
    vm_compute; reflexivity).
Defined.

Lemma predict_threshold_above_cap_never_executes_witness :
  let c := {| confidence_threshold := Fin 1;
              scaling_cooldown := 300;
              models := {[ "scaling_predictor" := λ _, 5 ]};
              scalers := {[ "scaling_predictor" := λ row, row ]};
              last_scaling_times := ∅;
              k8s_apps_v1 := true |} in
  let s := Fixtures.state c (Fixtures.cluster_with 2 true) in
  match confidence_threshold (self s) with
  | Fin t => 95 # 100 < t
  | PInf | NaN => True
  | NInf => False
  end ∧
  ∃ r s',
    predict_scaling_decision "api" Fixtures.steady s = (Ok r, s') ∧
    action r = "scale_up" ∧
    executed r ≠ Some true ∧
    scale_results (env s') = scale_results (env s) ∧
    last_scaling_times (self s') = last_scaling_times (self s).
Proof.
  intros c s. split; [reflexivity|].
  ran ltac:(fun r s' =>
    split; [reflexivity|];
    apply (predict_threshold_above_cap_never_executes "api" Fixtures.steady
             s r s'); [reflexivity|vm_compute; reflexivity]).
Defined.

Lemma fake_sqrt_zero (q : Q) : q == 0 → np_sqrt q == 0.
Proof.
  intros Hq. unfold np_sqrt, fake_numpy.
  assert (Qfloor (q * 1000000000000) = 0%Z) as ->; [|reflexivity].
  rewrite Hq. reflexivity.
Qed.

Lemma predict_without_prometheus_is_confident_witness :
  let s := state (controller true 5 ∅) (cluster_with 2 true) in
  (∀ q, q == 0 → np_sqrt q == 0) ∧
  (∀ metric, prometheus (env s) "api" metric = None) ∧
  ∃ model scaler r s',
    models (self s) !! "scaling_predictor" = Some model ∧
    scalers (self s) !! "scaling_predictor" = Some scaler ∧
    predict_scaling_decision "api" ∅ s = (Ok r, s') ∧
    executed r = Some true ∧
    confidence r = Fin (95 # 100) ∧
    ∃ m, metrics r = Some m ∧
         Forall (λ metric, m !! metric = Some 0) queries.
Proof.
  intros s. split; [exact fake_sqrt_zero|]. split; [reflexivity|].
  eexists _, _, _, _.
  lazymatch goal with
  | |- _ = Some ?model ∧ _ = Some ?scaler ∧ _ = (Ok ?r, ?s') ∧ _ =>
      split; [reflexivity|]; split; [reflexivity|];
      split; [vm_compute; reflexivity|]; split; [reflexivity|];
      apply (predict_without_prometheus_is_confident "api" s model scaler r s'
               fake_sqrt_zero);
        [reflexivity|reflexivity|reflexivity|vm_compute; reflexivity]
  end.
Defined.

End ControllerMore.

(** ** Properties of the routes and of the model store *)

Module AppSpec.
Import Py PyFacts PyFacts2 Controller ControllerSpec ControllerMore App.

Section WithCluster.
Context {K : Type} `{!AppsV1Api K} `{!Numpy} `{!Sklearn} `{!FastAPI}.

Implicit Types (s : State K) (request : Request).

(** [load_models] never raises: a failed fit leaves the stores as they
    are, a successful one stores the model and the scaler together. *)
Lemma load_models_run s :
  ∃ s',
    load_models s = (Ok tt, s') ∧
    env s' = env s ∧
    confidence_threshold (self s') = confidence_threshold (self s) ∧
    scaling_cooldown (self s') = scaling_cooldown (self s) ∧
    k8s_apps_v1 (self s') = k8s_apps_v1 (self s) ∧
    last_scaling_times (self s') = last_scaling_times (self s) ∧
    match fit_scaling_predictor with
    | Ok (model, scaler) =>
        models (self s') = <["scaling_predictor" := model]> (models (self s)) ∧
        scalers (self s') = <["scaling_predictor" := scaler]> (scalers (self s))
    | Raise _ =>
        models (self s') = models (self s) ∧
        scalers (self s') = scalers (self s)
    end.
Proof.
  unfold load_models. run.
  destruct fit_scaling_predictor as [[model scaler]|e]; simpl;
    eexists; (split; [reflexivity|]); done.
Qed.


(** [scale_deployment_in] never raises and keeps the controller. *)
Lemma scale_deployment_in_frame svc n namespace s :
  ∃ r k,
    scale_deployment_in svc n namespace s
      = (Ok r, with_env (λ e, set_scale_results (scale_results (env s) ++ [r])
                                (set_cluster k e)) s) ∧
    sr_service_name r = svc ∧ sr_replicas r = n.
Proof.
  unfold scale_deployment_in, record_scale_result. run. unfold k8s.
  destruct (k8s_apps_v1 (self s)); simpl.
  - destruct (read_namespaced_deployment svc namespace (cluster (env s)))
      as [[d|e] k]; simpl.
    + destruct (patch_namespaced_deployment svc namespace _ k)
        as [[[]|e] k']; simpl; eauto.
    + eauto.
  - eexists _, (cluster (env s)). split; [by destruct s as [c []]|done].
Qed.

(** In the default namespace it is [scale_deployment]. *)
Lemma scale_deployment_in_default svc n s :
  scale_deployment_in svc n "default" s = scale_deployment svc n s.
Proof. reflexivity. Qed.

(** X21: [retrain_models] always reports the status success, also when
    the fit fails; the stores then keep the models and scalers they had.
    After a successful fit the model and its scaler are both stored.  The
    last scaling times are not touched. *)
Theorem retrain_models_always_reports_success s :
  ∃ res s',
    retrain_models s = (Ok res, s') ∧
    rt_status res = "success" ∧
    rt_models_updated res = Some (dom (models (self s'))) ∧
    rt_timestamp res = next_time s ∧
    last_scaling_times (self s') = last_scaling_times (self s) ∧
    match fit_scaling_predictor with
    | Ok (model, scaler) =>
        models (self s') !! "scaling_predictor" = Some model ∧
        scalers (self s') !! "scaling_predictor" = Some scaler
    | Raise _ =>
        models (self s') = models (self s) ∧
        scalers (self s') = scalers (self s)
    end.
Proof.
  unfold retrain_models. run.
  destruct (load_models_run s)
    as (s1 & -> & Henv & _ & _ & _ & Hlast & Hfit).
  unfold time_time, next_time. eexists _, _. split; [reflexivity|].
  simpl. rewrite Henv, Hlast. split_and!; try done.
  destruct fit_scaling_predictor as [[model scaler]|e];
    destruct Hfit as [-> ->]; [|done].
  by rewrite !lookup_insert_eq.
Qed.

(** *** The routes *)

Lemma predict_scaling_run request s :
  predict_scaling request s
  = if PyX.not_str (req_service_name request) then
      (PyX.Raise (PyX.HTTPException 500
         (HTTPException_str 400 "service_name is required")), s)
    else
      match predict_scaling_decision (default "" (req_service_name request))
              (default ∅ (req_metrics request)) s with
      | (Ok r, s') => (PyX.Ok r, s')
      | (Raise e, s') => (PyX.Raise (PyX.HTTPException 500 (exn_str e)), s')
      end.
Proof.
  unfold predict_scaling. runx.
  destruct (PyX.not_str (req_service_name request)); [done|].
  by destruct (predict_scaling_decision _ _ s) as [[r|e] s'].
Qed.

Lemma manual_scale_run request s :
  manual_scale request s
  = if PyX.not_str (req_service_name request)
       || bool_decide (req_replicas request = None) then
      (PyX.Raise (PyX.HTTPException 500
         (HTTPException_str 400 "service_name and replicas are required")), s)
    else
      match scale_deployment_in (default "" (req_service_name request))
              (default 0%Z (req_replicas request))
              (default "default" (req_namespace request)) s with
      | (Ok r, s') => (PyX.Ok r, s')
      | (Raise e, s') => (PyX.Raise (PyX.HTTPException 500 (exn_str e)), s')
      end.
Proof.
  unfold manual_scale. runx.
  destruct (PyX.not_str (req_service_name request)
            || bool_decide (req_replicas request = None)); [done|].
  by destruct (scale_deployment_in _ _ _ s) as [[r|e] s'].
Qed.

(** X22: a request to [/scale] without a service name (absent or empty)
    or without a replica count is answered with status 500, not 400: the
    exception with status 400 is raised inside the [try] of the route and
    turned into the detail of a 500.  Nothing is dispatched and the state
    stays as it is. *)
Theorem manual_scale_missing_field_is_500 request s :
  PyX.not_str (req_service_name request) = true ∨
  req_replicas request = None →
  manual_scale request s
  = (PyX.Raise (PyX.HTTPException 500
       (HTTPException_str 400 "service_name and replicas are required")), s).
Proof.
  intros Hmissing. rewrite manual_scale_run.
  destruct Hmissing as [-> | ->]; [done|].
  by rewrite orb_true_r.
Qed.

(** X23: a request to [/scale] with a service name and a replica count is
    never answered with an error: the route returns the dictionary of
    [scale_deployment], also when its status is error.  The count is
    passed on as it is, neither clamped to 1..10 nor held back by the
    cooldown, and the controller is left unchanged: a manual scaling
    starts no cooldown. *)
Theorem manual_scale_dispatches_unchecked request s name n :
  req_service_name request = Some name →
  name ≠ "" →
  req_replicas request = Some n →
  ∃ r s',
    manual_scale request s = (PyX.Ok r, s') ∧
    sr_service_name r = name ∧
    sr_replicas r = n ∧
    self s' = self s ∧
    scale_results (env s') = scale_results (env s) ++ [r] ∧
    ticks (env s') = ticks (env s).
Proof.
  intros Hname Hne Hn. rewrite manual_scale_run, Hname, Hn.
  assert (PyX.not_str (Some name) = false) as ->
    by (by destruct name).
  rewrite bool_decide_eq_false_2 by done. simpl.
  destruct (scale_deployment_in_frame name n
              (default "default" (req_namespace request)) s)
    as (r & k & -> & Hsvc & Hrep).
  eexists _, _. split; [reflexivity|]. done.
Qed.

(** X24: a request to [/predict] without a service name (absent or
    empty) is answered with status 500, not 400, and leaves the state as
    it is; a decision that raises is answered with status 500 as well. *)
Theorem predict_scaling_errors_are_500 request s :
  (PyX.not_str (req_service_name request) = true →
   predict_scaling request s
   = (PyX.Raise (PyX.HTTPException 500
        (HTTPException_str 400 "service_name is required")), s)) ∧
  (∀ e, fst (predict_scaling request s) = PyX.Raise e →
        ∃ detail, e = PyX.HTTPException 500 detail).
Proof.
  rewrite predict_scaling_run. split.
  - by intros ->.
  - intros e. destruct (PyX.not_str (req_service_name request)).
    + intros [= <-]. eauto.
    + destruct (predict_scaling_decision _ _ s) as [[r|e'] s'];
        [done|]. intros [= <-]. eauto.
Qed.

(** *** The model store along the life of the controller *)







End WithCluster.

Import Fixtures Fixtures2.

Lemma manual_scale_missing_field_is_500_witness :
  let s := state (controller true 5 ∅) (cluster_with 2 true) in
  let req := request None (Some 3%Z) in
  (PyX.not_str (req_service_name req) = true ∨ req_replicas req = None) ∧
  manual_scale req s
  = (PyX.Raise (PyX.HTTPException 500
       (HTTPException_str 400 "service_name and replicas are required")), s).
Proof.
  intros s req.
  assert (H : PyX.not_str (req_service_name req) = true ∨
              req_replicas req = None) by (left; reflexivity).
  split; [exact H|]. exact (manual_scale_missing_field_is_500 req s H).
Defined.

(** A manual scaling to zero replicas, during the cooldown of [api]. *)
Lemma manual_scale_dispatches_unchecked_witness :
  let s := state (controller true 5 {[ "api" := 900 ]}) (cluster_with 2 true) in
  let req := request (Some "api") (Some 0%Z) in
  req_service_name req = Some "api" ∧ "api" ≠ "" ∧
  req_replicas req = Some 0%Z ∧
  cluster (env (snd (manual_scale req s))) = cluster_with 0 true ∧
  ∃ r s',
    manual_scale req s = (PyX.Ok r, s') ∧
    sr_service_name r = "api" ∧
    sr_replicas r = 0%Z ∧
    self s' = self s ∧
    scale_results (env s') = scale_results (env s) ++ [r] ∧
    ticks (env s') = ticks (env s).
Proof.
  intros s req.
  assert (Hne : "api" ≠ "") by done.
  split; [reflexivity|]. split; [exact Hne|]. split; [reflexivity|].
  split; [vm_compute; reflexivity|].
  exact (manual_scale_dispatches_unchecked req s "api" 0 eq_refl Hne eq_refl).
Defined.



End AppSpec.
